(** * gologin: provider user-fetch handlers and response validators

    A shallow embedding of the Go packages [facebook] and [bitbucket]
    (login.go) together with the parts of [gologin], [gologin/oauth2],
    [gologin/oauth1], [github] and [twitter] that their handlers and tests
    rely on.

    Conventions of the embedding:
    - a Go pointer or interface value that may be [nil] is an [option];
    - a function that may dereference [nil] returns an [outcome];
    - a handler runs in the monad [M]: it threads the response writer it
      was given and a log of the calls made to handlers and to the
      provider's API, and it may panic. *)

From Stdlib Require Import String Ascii List ZArith Lia Bool.
From ExtLib Require Import Structures.Monad.
Import ListNotations.
Import MonadNotation.

Local Open Scope string_scope.
Local Open Scope Z_scope.
Local Open Scope monad_scope.

Set Implicit Arguments.

(** ** Results of code that can panic *)

Inductive outcome (A : Type) : Type :=
| Returns (a : A)
| Panics (why : string).

Arguments Returns {A} a.
Arguments Panics {A} why.

(** The runtime error of reading a field through a nil pointer. *)
Definition nilDereference : string :=
  "invalid memory address or nil pointer dereference".

(** ** Package errors (and fmt.Errorf) *)

Module errors.

(** A Go error made by [errors.New] is a pointer: two errors are the same
    value when they are the same allocation.  Package-level error
    variables are allocated once, under their qualified name; errors made
    while a request is served are [Dynamic], and are compared by their
    text, as [assert.Equal] compares them in the tests. *)
Inductive allocation : Type :=
| PackageVar (qualifiedName : string)
| Dynamic.

Record error : Type := New { identity : allocation; Error : string }.

End errors.

Abbreviation error := errors.error.
Abbreviation Error := errors.Error.

Module fmt.

Definition Errorf (text : string) : error := errors.New errors.Dynamic text.

End fmt.

(** ** Package net/http *)

Module http.

Definition StatusOK : Z := 200.
Definition StatusBadRequest : Z := 400.
Definition StatusInternalServerError : Z := 500.

Record Response : Type := { StatusCode : Z }.

(** url.Values: the fields of a form, each with its values. *)
Definition Values : Type := list (string * list string).

(** Values.Get: the first value of the field, or the empty string. *)
Fixpoint Get (v : Values) (field : string) : string :=
  match v with
  | [] => ""
  | (k, vs) :: rest =>
      if String.eqb k field then
        match vs with
        | [] => ""
        | x :: _ => x
        end
      else Get rest field
  end.

Record Request : Type := { Method : string; PostForm : Values }.

(** The state of a response writer (an httptest.ResponseRecorder): the
    status code is fixed by the first WriteHeader; a Write before any
    WriteHeader fixes it to 200 (the writer's default status). *)
Record ResponseWriter : Type :=
  { wroteHeader : bool; Code : Z; Body : string }.

Definition NewRecorder : ResponseWriter :=
  {| wroteHeader := false; Code := StatusOK; Body := "" |}.

Definition WriteHeader (code : Z) (w : ResponseWriter) : ResponseWriter :=
  if wroteHeader w then w
  else {| wroteHeader := true; Code := code; Body := Body w |}.

Definition Write (s : string) (w : ResponseWriter) : ResponseWriter :=
  let w' := WriteHeader StatusOK w in
  {| wroteHeader := wroteHeader w'; Code := Code w'; Body := Body w' ++ s |}.

Definition newline : string := String (ascii_of_nat 10) EmptyString.

(** fmt.Fprintln(w, s) *)
Definition Fprintln (s : string) (w : ResponseWriter) : ResponseWriter :=
  Write (s ++ newline) w.

(** The client built by Config.Client(ctx, token): requests made through
    it are authorised with [auth]. *)
Record Client (Token : Type) : Type := { auth : Token }.

End http.

(** ** Package golang.org/x/oauth2 *)

Module oauth2.

Record Token : Type := { AccessToken : string }.

Record Config : Type := { ClientID : string; ClientSecret : string }.

End oauth2.

(** ** Package golang.org/x/net/context *)

Module context.

(** The keys under which the packages store their values. *)
Inductive key : Type :=
| errorKey          (* gologin *)
| tokenKey          (* gologin/oauth2 *)
| accessTokenKey    (* gologin/oauth1 *)
| accessSecretKey   (* gologin/oauth1 *)
| userKey           (* the provider package *)
| otherKey (name : string).

Definition key_eqb (a b : key) : bool :=
  match a, b with
  | errorKey, errorKey => true
  | tokenKey, tokenKey => true
  | accessTokenKey, accessTokenKey => true
  | accessSecretKey, accessSecretKey => true
  | userKey, userKey => true
  | otherKey x, otherKey y => String.eqb x y
  | _, _ => false
  end.

(** The dynamically typed values a context holds; [U] is the provider's
    User type, and a user is stored as the pointer it is. *)
Inductive any (U : Type) : Type :=
| AnyError (e : error)
| AnyToken (t : oauth2.Token)
| AnyString (s : string)
| AnyUser (u : option U).

Arguments AnyError {U} e.
Arguments AnyToken {U} t.
Arguments AnyString {U} s.
Arguments AnyUser {U} u.

(** A context is a chain of frames, the newest first. *)
Definition Context (U : Type) : Type := list (key * any U).

Definition Background {U : Type} : Context U := [].

Definition WithValue {U : Type} (ctx : Context U) (k : key) (v : any U)
  : Context U :=
  (k, v) :: ctx.

(** ctx.Value(k): the newest frame bound to [k]. *)
Fixpoint Value {U : Type} (ctx : Context U) (k : key) : option (any U) :=
  match ctx with
  | [] => None
  | (k', v) :: parent => if key_eqb k' k then Some v else Value parent k
  end.

End context.

Abbreviation Context := context.Context.

(** ** Handlers and their effects *)

Inductive Role : Type := Success | Failure.

Definition Role_eqb (a b : Role) : bool :=
  match a, b with
  | Success, Success => true
  | Failure, Failure => true
  | _, _ => false
  end.

(** What a handler does that the claims count: a call [h.ServeHTTP(ctx, w,
    req)] made by the stage [site] to its success or its failure handler,
    a request to the provider's user API, and a failure reported to the
    test (assert.Fail). *)
Inductive Event (U : Type) : Type :=
| Serve (site : string) (role : Role) (ctx : Context U)
| APICall (endpoint : string) (token : string)
| TestFail (message : string).

Arguments Serve {U} site role ctx.
Arguments APICall {U} endpoint token.
Arguments TestFail {U} message.

Record World (U : Type) : Type :=
  { writer : http.ResponseWriter; calls : list (Event U) }.

Definition M (U A : Type) : Type := World U -> outcome A * World U.

#[export] Instance Monad_M (U : Type) : Monad (M U) :=
  {| ret := fun A (a : A) (s : World U) => (Returns a, s);
     bind := fun A B (m : M U A) (f : A -> M U B) (s : World U) =>
               match m s with
               | (Returns a, s') => f a s'
               | (Panics why, s') => (Panics why, s')
               end |}.

Definition panic {U A : Type} (why : string) : M U A :=
  fun s => (Panics why, s).

Definition record {U : Type} (e : Event U) : M U unit :=
  fun s => (Returns tt, {| writer := writer s; calls := calls s ++ [e] |}).

Definition onWriter {U : Type} (f : http.ResponseWriter -> http.ResponseWriter)
  : M U unit :=
  fun s => (Returns tt, {| writer := f (writer s); calls := calls s |}).

Definition liftOutcome {U A : Type} (o : outcome A) : M U A :=
  match o with
  | Returns a => ret a
  | Panics why => panic why
  end.

Module goji.

(** goji.Handler: ServeHTTP(ctx, w, req); the writer [w] is the one held by
    the world the handler runs in. *)
Definition Handler (U : Type) : Type :=
  Context U -> http.Request -> M U unit.

(** goji.HandlerFunc(fn) for a stage's closure. *)
Definition HandlerFunc {U : Type} (fn : Context U -> http.Request -> M U unit)
  : Handler U := fn.

(** A handler supplied by the caller (as the tests' closures are): all it
    does is to read its context and request and to write to [w]. *)
Definition leaf {U : Type}
    (fn : Context U -> http.Request -> http.ResponseWriter -> http.ResponseWriter)
  : Handler U :=
  fun ctx req => onWriter (fn ctx req).

(** The call [h.ServeHTTP(ctx, w, req)] made by [site] to the handler it
    holds as [role]; calling a nil handler panics. *)
Definition ServeHTTP {U : Type} (site : string) (role : Role)
    (h : option (Handler U)) (ctx : Context U) (req : http.Request)
  : M U unit :=
  match h with
  | None => panic nilDereference
  | Some f => record (Serve site role ctx) ;; f ctx req
  end.

End goji.

(** Running a handler on a writer, from an empty log. *)
Definition run {U : Type} (h : goji.Handler U) (ctx : Context U)
    (req : http.Request) (w : http.ResponseWriter) : outcome unit * World U :=
  h ctx req {| writer := w; calls := [] |}.

Definition result {U A : Type} (o : outcome A * World U) : outcome A := fst o.
Definition finalWriter {U A : Type} (o : outcome A * World U)
  : http.ResponseWriter := writer (snd o).
Definition log {U A : Type} (o : outcome A * World U) : list (Event U) :=
  calls (snd o).

(** How many times a success (or failure) handler was called. *)
Fixpoint invocations {U : Type} (r : Role) (l : list (Event U)) : nat :=
  match l with
  | [] => 0%nat
  | Serve _ r' _ :: rest =>
      ((if Role_eqb r r' then 1 else 0) + invocations r rest)%nat
  | _ :: rest => invocations r rest
  end.


(** How many requests were made to the provider's API. *)
Fixpoint apiCalls {U : Type} (l : list (Event U)) : nat :=
  match l with
  | [] => 0%nat
  | APICall _ _ :: rest => S (apiCalls rest)
  | _ :: rest => apiCalls rest
  end.

(** A reply of an API client that follows the convention of net/http: a nil
    error comes with a response. *)
Definition conventional {U : Type}
    (reply : option U * option http.Response * option error) : Prop :=
  snd reply = None -> snd (fst reply) <> None.

(** ** Packages io and io/ioutil *)

Module io.

(** An io.ReadCloser as its reader sees it: the bytes still to be read, the
    error the read ends with (nil at the end of the data), and how many
    times it was closed. *)
Record ReadCloser : Type :=
  { content : string; readErr : option error; closes : nat }.

Definition Close (rc : ReadCloser) : ReadCloser :=
  {| content := content rc; readErr := readErr rc; closes := S (closes rc) |}.

End io.

Module ioutil.

(** ioutil.ReadAll(r): the bytes read, the error, and the reader, drained. *)
Definition ReadAll (rc : io.ReadCloser)
  : string * option error * io.ReadCloser :=
  (io.content rc, io.readErr rc,
   {| io.content := ""; io.readErr := io.readErr rc; io.closes := io.closes rc |}).

End ioutil.

(** ** Package testutils (asserts.go) *)

Module testutils.

(** AssertSuccessNotCalled is a success ContextHandler that fails if
    called. *)
Definition AssertSuccessNotCalled {U : Type} : goji.Handler U :=
  goji.HandlerFunc
    (fun ctx req => record (TestFail "unexpected call to success ContextHandler")).

(** AssertFailureNotCalled is a failure ContextHandler that fails if
    called. *)
Definition AssertFailureNotCalled {U : Type} : goji.Handler U :=
  goji.HandlerFunc
    (fun ctx req => record (TestFail "unexpected call to failure ContextHandler")).

Section AssertBody.
(** The verb %q of t.Errorf (strconv.Quote). *)
Variable Quote : string -> string.

(** AssertBodyString asserts that a Request Body matches the expected
    string.  The reader is closed when the function returns (defer); what
    is returned here is the reader as it is left. *)
Definition AssertBodyString {U : Type} (rc : io.ReadCloser) (expected : string)
  : M U io.ReadCloser :=
  let '(b, err, rc) := ioutil.ReadAll rc in
  match err with
  | None =>
      if negb (String.eqb b expected) then
        record (TestFail ("expected " ++ Quote expected ++ ", got " ++ Quote b))
      else ret tt
  | Some _ => record (TestFail "error reading Body")
  end ;;
  ret (io.Close rc).

End AssertBody.

End testutils.

(** ** Package gologin *)

Module gologin.

Section Carrier.
Variable U : Type.

(** Modelled from the spec: gologin.WithError and gologin.ErrorFromContext
    are not among the sources.  The context carries a single last-error
    value; a later WithError shadows an earlier one, as lookup walks the
    chain from the newest frame. *)
Definition WithError (ctx : Context U) (err : error) : Context U :=
  context.WithValue ctx context.errorKey (context.AnyError err).

Definition ErrorFromContext (ctx : Context U) : option error :=
  match context.Value ctx context.errorKey with
  | Some (context.AnyError e) => Some e
  | _ => None
  end.

(** Modelled from the spec: gologin.DefaultFailureHandler is not among
    the sources.  It writes the last error's message as the plain-text
    body, as a line (the tests read the message followed by a newline),
    and leaves the status to the response writer.  The spec does not say
    what it does on a context without an error; here it writes nothing. *)
Definition failureHandler (ctx : Context U) (req : http.Request)
  : M U unit :=
  match ErrorFromContext ctx with
  | Some err => onWriter (http.Fprintln (Error err))
  | None => ret tt
  end.

Definition DefaultFailureHandler : goji.Handler U :=
  goji.HandlerFunc failureHandler.

End Carrier.

Arguments WithError {U} ctx err.
Arguments ErrorFromContext {U} ctx.
Arguments DefaultFailureHandler {U}.

(** What the failure handler in use writes: the caller's handler, or the
    default one where the caller passed nil. *)
Definition failureWrites {U : Type}
    (failure : option (Context U -> http.Request ->
                       http.ResponseWriter -> http.ResponseWriter))
    (ctx : Context U) (req : http.Request) (w : http.ResponseWriter)
  : http.ResponseWriter :=
  match failure with
  | Some fn => fn ctx req w
  | None =>
      match ErrorFromContext ctx with
      | Some err => http.Fprintln (Error err) w
      | None => w
      end
  end.

End gologin.

(** ** Package gologin/oauth2 *)

Module oauth2Login.

Section Carrier.
Variable U : Type.

(** Modelled from the spec: WithToken and TokenFromContext of
    gologin/oauth2 are not among the sources.  The error text is the one
    the handlers' tests expect. *)
Definition WithToken (ctx : Context U) (token : oauth2.Token) : Context U :=
  context.WithValue ctx context.tokenKey (context.AnyToken token).

Definition TokenFromContext (ctx : Context U)
  : option oauth2.Token * option error :=
  match context.Value ctx context.tokenKey with
  | Some (context.AnyToken token) => (Some token, None)
  | _ => (None, Some (fmt.Errorf "oauth2: Context missing Token"))
  end.

End Carrier.

Arguments WithToken {U} ctx token.
Arguments TokenFromContext {U} ctx.

(** Config.Client(ctx, token) of golang.org/x/oauth2, declared here, after
    the contexts it takes. *)
Definition Client {U : Type} (config : oauth2.Config) (ctx : Context U)
    (token : option oauth2.Token) : http.Client (option oauth2.Token) :=
  {| http.auth := token |}.

(** The bearer token a client sends with its requests. *)
Definition bearer (c : http.Client (option oauth2.Token)) : string :=
  match http.auth c with
  | Some t => oauth2.AccessToken t
  | None => ""
  end.

End oauth2Login.

(** ** Package facebook (login.go) *)

Module facebook.

(** The User of the tests: [&User{ID: "54638001", Name: "Ivy Crimson"}]. *)
Record User : Type := { ID : string; Name : string }.

Definition ErrUnableToGetFacebookUser : error :=
  errors.New (errors.PackageVar "facebook.ErrUnableToGetFacebookUser")
             "facebook: unable to get Facebook User".

(** validateResponse returns an error if the given Facebook User, raw
    http.Response, or error are unexpected.  [resp.StatusCode] is read only
    when [err] is nil, and reading it through a nil [resp] panics. *)
Definition validateResponse (user : option User)
    (resp : option http.Response) (err : option error)
  : outcome (option error) :=
  match err with
  | Some _ => Returns (Some ErrUnableToGetFacebookUser)
  | None =>
      match resp with
      | None => Panics nilDereference
      | Some r =>
          if negb (http.StatusCode r =? http.StatusOK) then
            Returns (Some ErrUnableToGetFacebookUser)
          else
            match user with
            | None => Returns (Some ErrUnableToGetFacebookUser)
            | Some u =>
                if String.eqb (ID u) "" then
                  Returns (Some ErrUnableToGetFacebookUser)
                else Returns None
            end
      end
  end.

Definition WithUser (ctx : Context User) (user : option User) : Context User :=
  context.WithValue ctx context.userKey (context.AnyUser user).

Definition Reply : Type :=
  (option User * option http.Response * option error)%type.

Section Handler.
(** The Facebook API client (newClient(httpClient).Me), which is not
    among the sources: what the "me" endpoint answers to a client. *)
Variable Me : http.Client (option oauth2.Token) -> Reply.

Definition callMe (c : http.Client (option oauth2.Token)) : M User Reply :=
  record (APICall "facebook: me" (oauth2Login.bearer c)) ;; ret (Me c).

(** facebookHandler gets the OAuth2 Token from the ctx to get the
    corresponding Facebook User.  If successful, the user is added to the
    ctx and the success handler is called.  Otherwise, the failure
    handler is called. *)
Definition facebookHandler (config : oauth2.Config)
    (success failure : option (goji.Handler User)) : goji.Handler User :=
  let failure :=
    match failure with
    | None => Some gologin.DefaultFailureHandler
    | Some _ => failure
    end in
  let fn (ctx : Context User) (req : http.Request) : M User unit :=
    let '(token, err) := oauth2Login.TokenFromContext ctx in
    match err with
    | Some err =>
        let ctx := gologin.WithError ctx err in
        goji.ServeHTTP "facebookHandler" Failure failure ctx req
    | None =>
        let httpClient := oauth2Login.Client config ctx token in
        '(user, resp, err) <- callMe httpClient ;;
        err <- liftOutcome (validateResponse user resp err) ;;
        match err with
        | Some err =>
            let ctx := gologin.WithError ctx err in
            goji.ServeHTTP "facebookHandler" Failure failure ctx req
        | None =>
            let ctx := WithUser ctx user in
            goji.ServeHTTP "facebookHandler" Success success ctx req
        end
    end in
  goji.HandlerFunc fn.

End Handler.

Section Stages.
(** The stages of gologin/oauth2, which are not among the sources, and the
    cookie configuration of gologin. *)
Variable CookieConfig : Type.
Variable oauth2StateHandler :
  CookieConfig -> option (goji.Handler User) -> goji.Handler User.
Variable oauth2LoginHandler :
  oauth2.Config -> option (goji.Handler User) -> goji.Handler User.
Variable oauth2CallbackHandler :
  oauth2.Config -> option (goji.Handler User) -> option (goji.Handler User) ->
  goji.Handler User.
Variable Me : http.Client (option oauth2.Token) -> Reply.

(** StateHandler checks for a state cookie. *)
Definition StateHandler (config : CookieConfig)
    (success : option (goji.Handler User)) : goji.Handler User :=
  oauth2StateHandler config success.

(** LoginHandler handles login requests by reading the state value from the
    ctx and redirecting requests to the AuthURL with that state value. *)
Definition LoginHandler (config : oauth2.Config)
    (failure : option (goji.Handler User)) : goji.Handler User :=
  oauth2LoginHandler config failure.

(** CallbackHandler handles redirection URI requests and adds the access
    token and User to the ctx.  If authentication succeeds, handling
    delegates to the success handler, otherwise to the failure handler. *)
Definition CallbackHandler (config : oauth2.Config)
    (success failure : option (goji.Handler User)) : goji.Handler User :=
  let success := Some (facebookHandler Me config success failure) in
  oauth2CallbackHandler config success failure.

End Stages.

End facebook.

(** ** Package bitbucket (login.go) *)

Module bitbucket.

Record User : Type := { Username : string; DisplayName : string }.

Definition ErrUnableToGetBitbucketUser : error :=
  errors.New (errors.PackageVar "bitbucket.ErrUnableToGetBitbucketUser")
             "bitbucket: unable to get Bitbucket User".

(** validateResponse returns an error if the given Bitbucket User, raw
    http.Response, or error are unexpected. *)
Definition validateResponse (user : option User)
    (resp : option http.Response) (err : option error)
  : outcome (option error) :=
  match err with
  | Some _ => Returns (Some ErrUnableToGetBitbucketUser)
  | None =>
      match resp with
      | None => Panics nilDereference
      | Some r =>
          if negb (http.StatusCode r =? http.StatusOK) then
            Returns (Some ErrUnableToGetBitbucketUser)
          else
            match user with
            | None => Returns (Some ErrUnableToGetBitbucketUser)
            | Some u =>
                if String.eqb (Username u) "" then
                  Returns (Some ErrUnableToGetBitbucketUser)
                else Returns None
            end
      end
  end.

Definition WithUser (ctx : Context User) (user : option User) : Context User :=
  context.WithValue ctx context.userKey (context.AnyUser user).

Definition Reply : Type :=
  (option User * option http.Response * option error)%type.

Section Handler.
(** The Bitbucket API client (newClient(httpClient).CurrentUser), which
    is not among the sources. *)
Variable CurrentUser : http.Client (option oauth2.Token) -> Reply.

Definition callCurrentUser (c : http.Client (option oauth2.Token))
  : M User Reply :=
  record (APICall "bitbucket: user" (oauth2Login.bearer c)) ;;
  ret (CurrentUser c).

(** bitbucketHandler gets the OAuth2 Token from the ctx to get the
    corresponding Bitbucket User. *)
Definition bitbucketHandler (config : oauth2.Config)
    (success failure : option (goji.Handler User)) : goji.Handler User :=
  let failure :=
    match failure with
    | None => Some gologin.DefaultFailureHandler
    | Some _ => failure
    end in
  let fn (ctx : Context User) (req : http.Request) : M User unit :=
    let '(token, err) := oauth2Login.TokenFromContext ctx in
    match err with
    | Some err =>
        let ctx := gologin.WithError ctx err in
        goji.ServeHTTP "bitbucketHandler" Failure failure ctx req
    | None =>
        let httpClient := oauth2Login.Client config ctx token in
        '(user, resp, err) <- callCurrentUser httpClient ;;
        err <- liftOutcome (validateResponse user resp err) ;;
        match err with
        | Some err =>
            let ctx := gologin.WithError ctx err in
            goji.ServeHTTP "bitbucketHandler" Failure failure ctx req
        | None =>
            let ctx := WithUser ctx user in
            goji.ServeHTTP "bitbucketHandler" Success success ctx req
        end
    end in
  goji.HandlerFunc fn.

End Handler.

Section Stages.
(** The stages of gologin/oauth2, which are not among the sources, and the
    cookie configuration of gologin. *)
Variable CookieConfig : Type.
Variable oauth2StateHandler :
  CookieConfig -> option (goji.Handler User) -> goji.Handler User.
Variable oauth2LoginHandler :
  oauth2.Config -> option (goji.Handler User) -> goji.Handler User.
Variable oauth2CallbackHandler :
  oauth2.Config -> option (goji.Handler User) -> option (goji.Handler User) ->
  goji.Handler User.
Variable CurrentUser : http.Client (option oauth2.Token) -> Reply.

(** StateHandler checks for a state cookie. *)
Definition StateHandler (config : CookieConfig)
    (success : option (goji.Handler User)) : goji.Handler User :=
  oauth2StateHandler config success.

(** LoginHandler handles login requests by reading the state value from the
    ctx and redirecting requests to the AuthURL with that state value. *)
Definition LoginHandler (config : oauth2.Config)
    (failure : option (goji.Handler User)) : goji.Handler User :=
  oauth2LoginHandler config failure.

(** CallbackHandler handles redirection URI requests and adds the access
    token and User to the ctx.  If authentication succeeds, handling
    delegates to the success handler, otherwise to the failure handler. *)
Definition CallbackHandler (config : oauth2.Config)
    (success failure : option (goji.Handler User)) : goji.Handler User :=
  let success := Some (bitbucketHandler CurrentUser config success failure) in
  oauth2CallbackHandler config success failure.

End Stages.

End bitbucket.

(** ** Package github *)

Module github.

(** go-github's User of the tests: [&github.User{ID: github.Int(917408),
    Name: github.String("Alyssa Hacker")}]; its fields are pointers. *)
Record User : Type := { ID : option Z; Name : option string }.

Definition ErrUnableToGetGithubUser : error :=
  errors.New (errors.PackageVar "github.ErrUnableToGetGithubUser")
             "github: unable to get Github User".

(** Modelled from the spec: github's validateResponse is not among the
    sources (its test is).  The policy of the Response Validator: a non-nil
    error, a status other than 200, a nil user or a user whose primary
    identifier is the zero value is rejected with the provider's error. *)
Definition validateResponse (user : option User)
    (resp : option http.Response) (err : option error)
  : outcome (option error) :=
  match err with
  | Some _ => Returns (Some ErrUnableToGetGithubUser)
  | None =>
      match resp with
      | None => Panics nilDereference
      | Some r =>
          if negb (http.StatusCode r =? http.StatusOK) then
            Returns (Some ErrUnableToGetGithubUser)
          else
            match user with
            | None => Returns (Some ErrUnableToGetGithubUser)
            | Some u =>
                match ID u with
                | None => Returns (Some ErrUnableToGetGithubUser)
                | Some _ => Returns None
                end
            end
      end
  end.

Definition WithUser (ctx : Context User) (user : option User) : Context User :=
  context.WithValue ctx context.userKey (context.AnyUser user).

Definition Reply : Type :=
  (option User * option http.Response * option error)%type.

Section Handler.
(** The GitHub API client (Users.Get of go-github). *)
Variable Get : http.Client (option oauth2.Token) -> Reply.

Definition callGet (c : http.Client (option oauth2.Token)) : M User Reply :=
  record (APICall "github: user" (oauth2Login.bearer c)) ;; ret (Get c).

(** Modelled from the spec: githubHandler is not among the sources (its
    tests are).  The Provider User-Fetch Stage: read the token from the
    context, absence failing with the error of TokenFromContext; call
    the provider's current-user endpoint once; pass the reply to the
    validator; on rejection attach the provider's error and call the
    failure handler, on acceptance attach the user and call the success
    handler. *)
Definition githubHandler (config : oauth2.Config)
    (success failure : option (goji.Handler User)) : goji.Handler User :=
  let failure :=
    match failure with
    | None => Some gologin.DefaultFailureHandler
    | Some _ => failure
    end in
  let fn (ctx : Context User) (req : http.Request) : M User unit :=
    let '(token, err) := oauth2Login.TokenFromContext ctx in
    match err with
    | Some err =>
        let ctx := gologin.WithError ctx err in
        goji.ServeHTTP "githubHandler" Failure failure ctx req
    | None =>
        let httpClient := oauth2Login.Client config ctx token in
        '(user, resp, err) <- callGet httpClient ;;
        err <- liftOutcome (validateResponse user resp err) ;;
        match err with
        | Some err =>
            let ctx := gologin.WithError ctx err in
            goji.ServeHTTP "githubHandler" Failure failure ctx req
        | None =>
            let ctx := WithUser ctx user in
            goji.ServeHTTP "githubHandler" Success success ctx req
        end
    end in
  goji.HandlerFunc fn.

End Handler.

End github.

(** ** Package gologin/oauth1 *)

Module oauth1Login.

Record Config : Type := { ConsumerKey : string; ConsumerSecret : string }.

Section Carrier.
Variable U : Type.

(** Modelled from the spec: WithAccessToken and AccessTokenFromContext of
    gologin/oauth1 are not among the sources (the tests of the Token
    Stage read the pair back with AccessTokenFromContext). *)
Definition WithAccessToken (ctx : Context U) (accessToken accessSecret : string)
  : Context U :=
  context.WithValue
    (context.WithValue ctx context.accessTokenKey (context.AnyString accessToken))
    context.accessSecretKey (context.AnyString accessSecret).

Definition AccessTokenFromContext (ctx : Context U)
  : string * string * option error :=
  match context.Value ctx context.accessTokenKey,
        context.Value ctx context.accessSecretKey with
  | Some (context.AnyString accessToken), Some (context.AnyString accessSecret) =>
      (accessToken, accessSecret, None)
  | _, _ => ("", "", Some (fmt.Errorf "oauth1: Context missing access token or secret"))
  end.

End Carrier.

Arguments WithAccessToken {U} ctx accessToken accessSecret.
Arguments AccessTokenFromContext {U} ctx.

(** Config.Client(ctx, oauth1.NewToken(accessToken, accessSecret)) of
    dghubble/oauth1. *)
Definition Client {U : Type} (config : Config) (ctx : Context U)
    (accessToken accessSecret : string) : http.Client (string * string) :=
  {| http.auth := (accessToken, accessSecret) |}.

End oauth1Login.

(** ** Package twitter *)

Module twitter.

(** go-twitter's User of the tests:
    [{"id": 1234, "id_str": "1234", "screen_name": "gopher"}]. *)
Record User : Type := { ID : Z; IDStr : string; ScreenName : string }.

Definition ErrUnableToGetTwitterUser : error :=
  errors.New (errors.PackageVar "twitter.ErrUnableToGetTwitterUser")
             "twitter: unable to get Twitter User".

(** Modelled from the spec: the Token Stage's errors and field names are
    not among the sources; the texts and names are the spec's. *)
Definition ErrMissingToken : error :=
  errors.New (errors.PackageVar "twitter.ErrMissingToken")
             "Unable to get request Token".

Definition ErrMissingTokenSecret : error :=
  errors.New (errors.PackageVar "twitter.ErrMissingTokenSecret")
             "Unable to get request Token Secret".

Definition accessTokenField : string := "oauth_token".
Definition accessTokenSecretField : string := "oauth_token_secret".

(** Modelled from the spec: twitter's validateResponse is not among the
    sources.  The policy of the Response Validator, the primary identifier
    being the numeric ID. *)
Definition validateResponse (user : option User)
    (resp : option http.Response) (err : option error)
  : outcome (option error) :=
  match err with
  | Some _ => Returns (Some ErrUnableToGetTwitterUser)
  | None =>
      match resp with
      | None => Panics nilDereference
      | Some r =>
          if negb (http.StatusCode r =? http.StatusOK) then
            Returns (Some ErrUnableToGetTwitterUser)
          else
            match user with
            | None => Returns (Some ErrUnableToGetTwitterUser)
            | Some u =>
                if ID u =? 0 then Returns (Some ErrUnableToGetTwitterUser)
                else Returns None
            end
      end
  end.

(** Modelled from the spec: a missing or blank token field is rejected with
    MissingToken, then a missing or blank secret field with
    MissingTokenSecret.  A field is blank when its value is the empty
    string, which is also what a missing field reads as. *)
Definition validateToken (token tokenSecret : string) : option error :=
  if String.eqb token "" then Some ErrMissingToken
  else if String.eqb tokenSecret "" then Some ErrMissingTokenSecret
  else None.

Definition WithUser (ctx : Context User) (user : option User) : Context User :=
  context.WithValue ctx context.userKey (context.AnyUser user).

Definition Reply : Type :=
  (option User * option http.Response * option error)%type.

Section Handler.
(** The Twitter API client (Accounts.VerifyCredentials of go-twitter). *)
Variable VerifyCredentials : http.Client (string * string) -> Reply.

Definition callVerifyCredentials (c : http.Client (string * string))
  : M User Reply :=
  record (APICall "twitter: account/verify_credentials" (fst (http.auth c))) ;;
  ret (VerifyCredentials c).

(** Modelled from the spec: twitter's user-fetch stage is not among the
    sources.  The Provider User-Fetch Stage over the OAuth1 token pair. *)
Definition verifyHandler (config : oauth1Login.Config)
    (success failure : option (goji.Handler User)) : goji.Handler User :=
  let failure :=
    match failure with
    | None => Some gologin.DefaultFailureHandler
    | Some _ => failure
    end in
  let fn (ctx : Context User) (req : http.Request) : M User unit :=
    let '(accessToken, accessSecret, err) :=
      oauth1Login.AccessTokenFromContext ctx in
    match err with
    | Some err =>
        let ctx := gologin.WithError ctx err in
        goji.ServeHTTP "verifyHandler" Failure failure ctx req
    | None =>
        let httpClient :=
          oauth1Login.Client config ctx accessToken accessSecret in
        '(user, resp, err) <- callVerifyCredentials httpClient ;;
        err <- liftOutcome (validateResponse user resp err) ;;
        match err with
        | Some err =>
            let ctx := gologin.WithError ctx err in
            goji.ServeHTTP "verifyHandler" Failure failure ctx req
        | None =>
            let ctx := WithUser ctx user in
            goji.ServeHTTP "verifyHandler" Success success ctx req
        end
    end in
  goji.HandlerFunc fn.

(** Modelled from the spec: TokenHandler is not among the sources (its
    tests are).  The standalone Token Stage: a method other than POST is
    rejected with the error "Method not allowed"; a missing or blank
    token or secret field is rejected by [validateToken]; a rejection is
    surfaced as HTTP 400, the status the tests read, and handed to the
    failure handler.  Otherwise the pair is stored in the context as it
    was posted and the stage's success handler is called, which is the
    caller's success handler wrapped in the provider's user-fetch stage:
    the tests find the Twitter user in the caller's context, and find
    the caller's success handler not called when Twitter is down. *)
Definition TokenHandler (config : oauth1Login.Config)
    (success failure : option (goji.Handler User)) : goji.Handler User :=
  let success := Some (verifyHandler config success failure) in
  let failure :=
    match failure with
    | None => Some gologin.DefaultFailureHandler
    | Some _ => failure
    end in
  let fn (ctx : Context User) (req : http.Request) : M User unit :=
    if negb (String.eqb (http.Method req) "POST") then
      let ctx := gologin.WithError ctx (fmt.Errorf "Method not allowed") in
      onWriter (http.WriteHeader http.StatusBadRequest) ;;
      goji.ServeHTTP "TokenHandler" Failure failure ctx req
    else
      let accessToken := http.Get (http.PostForm req) accessTokenField in
      let accessSecret := http.Get (http.PostForm req) accessTokenSecretField in
      match validateToken accessToken accessSecret with
      | Some err =>
          let ctx := gologin.WithError ctx err in
          onWriter (http.WriteHeader http.StatusBadRequest) ;;
          goji.ServeHTTP "TokenHandler" Failure failure ctx req
      | None =>
          let ctx := oauth1Login.WithAccessToken ctx accessToken accessSecret in
          goji.ServeHTTP "TokenHandler" Success success ctx req
      end in
  goji.HandlerFunc fn.

End Handler.

End twitter.

(** ** The values of the tests *)

Module fixtures.

(** TestValidateResponse (facebook/login_test.go). *)
Definition validUser : facebook.User :=
  {| facebook.ID := "54638001"; facebook.Name := "Ivy Crimson" |}.
Definition emptyUser : facebook.User :=
  {| facebook.ID := ""; facebook.Name := "" |}.
Definition validResponse : http.Response := {| http.StatusCode := 200 |}.
Definition invalidResponse : http.Response := {| http.StatusCode := 500 |}.

Definition validBitbucketUser : bitbucket.User :=
  {| bitbucket.Username := "atlassian"; bitbucket.DisplayName := "Atlassian" |}.

(** [&oauth2.Token{AccessToken: "any-token"}], [&oauth2.Config{}] and
    [&oauth1.Config{}]. *)
Definition anyToken : oauth2.Token := {| oauth2.AccessToken := "any-token" |}.
Definition config : oauth2.Config :=
  {| oauth2.ClientID := ""; oauth2.ClientSecret := "" |}.
Definition oauth1Config : oauth1Login.Config :=
  {| oauth1Login.ConsumerKey := ""; oauth1Login.ConsumerSecret := "" |}.

(** [http.NewRequest("GET", "/", nil)] and [http.PostForm(url, values)]. *)
Definition getRequest : http.Request :=
  {| http.Method := "GET"; http.PostForm := [] |}.
Definition postForm (values : http.Values) : http.Request :=
  {| http.Method := "POST"; http.PostForm := values |}.

(** The handlers of the tests that write "success handler called" and
    "failure handler called". *)
Definition successCalled {U : Type} (ctx : Context U) (req : http.Request)
    (w : http.ResponseWriter) : http.ResponseWriter :=
  http.Write "success handler called" w.
Definition failureCalled {U : Type} (ctx : Context U) (req : http.Request)
    (w : http.ResponseWriter) : http.ResponseWriter :=
  http.Write "failure handler called" w.

(** testutils.NewErrorServer(message, 500): the endpoint answers every
    client with status 500, and the client decodes no user from it. *)
Definition facebookDown (c : http.Client (option oauth2.Token))
  : facebook.Reply :=
  (Some emptyUser, Some invalidResponse, None).
Definition bitbucketDown (c : http.Client (option oauth2.Token))
  : bitbucket.Reply :=
  (None, Some invalidResponse, None).
Definition twitterDown (c : http.Client (string * string)) : twitter.Reply :=
  (None, Some invalidResponse, None).


Definition testTwitterToken : string := "some-token".
Definition testTwitterTokenSecret : string := "some-secret".

(** The form of TestTokenHandler. *)
Definition tokenAndSecret : http.Values :=
  [(twitter.accessTokenField, [testTwitterToken]);
   (twitter.accessTokenSecretField, [testTwitterTokenSecret])].

(** The forms of TestTokenHandler_InvalidFields. *)
Definition wrongTokenField : http.Values :=
  [("wrongFieldName", [testTwitterToken]);
   (twitter.accessTokenSecretField, [testTwitterTokenSecret])].
Definition wrongSecretField : http.Values :=
  [(twitter.accessTokenField, [testTwitterToken]);
   ("wrongFieldName", [testTwitterTokenSecret])].

(** newFacebookTestServer(jsonData) and its Bitbucket counterpart: the
    endpoint answers with the user. *)
Definition facebookServer (c : http.Client (option oauth2.Token))
  : facebook.Reply :=
  (Some validUser, Some validResponse, None).
Definition bitbucketServer (c : http.Client (option oauth2.Token))
  : bitbucket.Reply :=
  (Some validBitbucketUser, Some validResponse, None).

(** An OAuth2 callback stage that has obtained [anyToken] and hands over to
    its success handler. *)
Definition handOver {U : Type} (config : oauth2.Config)
    (success failure : option (goji.Handler U)) : goji.Handler U :=
  fun ctx req =>
    goji.ServeHTTP "CallbackHandler" Success success
      (oauth2Login.WithToken ctx anyToken) req.

End fixtures.

Import fixtures.



(** The failures reported to the test, in order. *)
Fixpoint testFailures {U : Type} (l : list (Event U)) : list string :=
  match l with
  | [] => []
  | TestFail message :: rest => message :: testFailures rest
  | _ :: rest => testFailures rest
  end.

(** ** The exits of a user-fetch handler *)


Section FacebookExits.
Variable Me : http.Client (option oauth2.Token) -> facebook.Reply.
Variable config : oauth2.Config.
Implicit Types (ctx : Context facebook.User) (req : http.Request)
  (s : World facebook.User).

(** The four ways a run of facebookHandler with handlers of the caller
    ends, from the world [s]: no token in the context; a panic in
    validateResponse; a reply rejected; a reply accepted (and then a panic
    when the success handler is nil). *)
Inductive facebookExit
    (success failure : option (Context facebook.User -> http.Request ->
                               http.ResponseWriter -> http.ResponseWriter))
    ctx req s : outcome unit * World facebook.User -> Prop :=
| facebookNoToken :
    (forall t, context.Value ctx context.tokenKey <> Some (context.AnyToken t)) ->
    let ctx' := gologin.WithError ctx (fmt.Errorf "oauth2: Context missing Token") in
    facebookExit success failure ctx req s
      (Returns tt,
       {| writer := gologin.failureWrites failure ctx' req (writer s);
          calls := calls s ++ [Serve "facebookHandler" Failure ctx'] |})
| facebookPanic t user resp err why :
    context.Value ctx context.tokenKey = Some (context.AnyToken t) ->
    Me (oauth2Login.Client config ctx (Some t)) = (user, resp, err) ->
    facebook.validateResponse user resp err = Panics why ->
    facebookExit success failure ctx req s
      (Panics why,
       {| writer := writer s;
          calls := calls s ++ [APICall "facebook: me" (oauth2.AccessToken t)] |})
| facebookRejected t user resp err :
    context.Value ctx context.tokenKey = Some (context.AnyToken t) ->
    Me (oauth2Login.Client config ctx (Some t)) = (user, resp, err) ->
    facebook.validateResponse user resp err
    = Returns (Some facebook.ErrUnableToGetFacebookUser) ->
    let ctx' := gologin.WithError ctx facebook.ErrUnableToGetFacebookUser in
    facebookExit success failure ctx req s
      (Returns tt,
       {| writer := gologin.failureWrites failure ctx' req (writer s);
          calls := (calls s ++ [APICall "facebook: me" (oauth2.AccessToken t)])
                   ++ [Serve "facebookHandler" Failure ctx'] |})
| facebookAccepted t u r :
    context.Value ctx context.tokenKey = Some (context.AnyToken t) ->
    Me (oauth2Login.Client config ctx (Some t)) = (Some u, Some r, None) ->
    http.StatusCode r = http.StatusOK ->
    facebook.ID u <> "" ->
    let ctx' := facebook.WithUser ctx (Some u) in
    facebookExit success failure ctx req s
      match success with
      | Some fn =>
          (Returns tt,
           {| writer := fn ctx' req (writer s);
              calls := (calls s ++ [APICall "facebook: me" (oauth2.AccessToken t)])
                       ++ [Serve "facebookHandler" Success ctx'] |})
      | None =>
          (Panics nilDereference,
           {| writer := writer s;
              calls := calls s ++ [APICall "facebook: me" (oauth2.AccessToken t)] |})
      end.

End FacebookExits.


Section BitbucketExits.
Variable CurrentUser : http.Client (option oauth2.Token) -> bitbucket.Reply.
Variable config : oauth2.Config.
Implicit Types (ctx : Context bitbucket.User) (req : http.Request)
  (s : World bitbucket.User).

(** The four ways a run of bitbucketHandler with handlers of the caller
    ends, from the world [s]: no token in the context; a panic in
    validateResponse; a reply rejected; a reply accepted (and then a panic
    when the success handler is nil). *)
Inductive bitbucketExit
    (success failure : option (Context bitbucket.User -> http.Request ->
                               http.ResponseWriter -> http.ResponseWriter))
    ctx req s : outcome unit * World bitbucket.User -> Prop :=
| bitbucketNoToken :
    (forall t, context.Value ctx context.tokenKey <> Some (context.AnyToken t)) ->
    let ctx' := gologin.WithError ctx (fmt.Errorf "oauth2: Context missing Token") in
    bitbucketExit success failure ctx req s
      (Returns tt,
       {| writer := gologin.failureWrites failure ctx' req (writer s);
          calls := calls s ++ [Serve "bitbucketHandler" Failure ctx'] |})
| bitbucketPanic t user resp err why :
    context.Value ctx context.tokenKey = Some (context.AnyToken t) ->
    CurrentUser (oauth2Login.Client config ctx (Some t)) = (user, resp, err) ->
    bitbucket.validateResponse user resp err = Panics why ->
    bitbucketExit success failure ctx req s
      (Panics why,
       {| writer := writer s;
          calls := calls s ++ [APICall "bitbucket: user" (oauth2.AccessToken t)] |})
| bitbucketRejected t user resp err :
    context.Value ctx context.tokenKey = Some (context.AnyToken t) ->
    CurrentUser (oauth2Login.Client config ctx (Some t)) = (user, resp, err) ->
    bitbucket.validateResponse user resp err
    = Returns (Some bitbucket.ErrUnableToGetBitbucketUser) ->
    let ctx' := gologin.WithError ctx bitbucket.ErrUnableToGetBitbucketUser in
    bitbucketExit success failure ctx req s
      (Returns tt,
       {| writer := gologin.failureWrites failure ctx' req (writer s);
          calls := (calls s ++ [APICall "bitbucket: user" (oauth2.AccessToken t)])
                   ++ [Serve "bitbucketHandler" Failure ctx'] |})
| bitbucketAccepted t u r :
    context.Value ctx context.tokenKey = Some (context.AnyToken t) ->
    CurrentUser (oauth2Login.Client config ctx (Some t)) = (Some u, Some r, None) ->
    http.StatusCode r = http.StatusOK ->
    bitbucket.Username u <> "" ->
    let ctx' := bitbucket.WithUser ctx (Some u) in
    bitbucketExit success failure ctx req s
      match success with
      | Some fn =>
          (Returns tt,
           {| writer := fn ctx' req (writer s);
              calls := (calls s ++ [APICall "bitbucket: user" (oauth2.AccessToken t)])
                       ++ [Serve "bitbucketHandler" Success ctx'] |})
      | None =>
          (Panics nilDereference,
           {| writer := writer s;
              calls := calls s ++ [APICall "bitbucket: user" (oauth2.AccessToken t)] |})
      end.

End BitbucketExits.

(** Replies of the two providers that differ only in what the validators do
    not look at: the same response, an error in both or in neither, a user
    in both or in neither, with an empty identifier in both or in
    neither. *)
Definition alike (f : facebook.Reply) (b : bitbucket.Reply) : Prop :=
  snd (fst f) = snd (fst b)
  /\ (snd f = None <-> snd b = None)
  /\ match fst (fst f), fst (fst b) with
     | Some uf, Some ub => facebook.ID uf = "" <-> bitbucket.Username ub = ""
     | None, None => True
     | _, _ => False
     end.

(** The two cases in which facebookHandler itself panics, both after the
    request to the API: the client returned a nil response with a nil
    error, or the reply is accepted and the success handler is nil. *)
Definition facebookOwnPanic
    (Me : http.Client (option oauth2.Token) -> facebook.Reply)
    (config : oauth2.Config) (success : option (goji.Handler facebook.User))
    (ctx : Context facebook.User) : Prop :=
  exists t,
    context.Value ctx context.tokenKey = Some (context.AnyToken t)
    /\ let reply := Me (oauth2Login.Client config ctx (Some t)) in
       ((snd reply = None /\ snd (fst reply) = None)
        \/ (success = None
            /\ facebook.validateResponse (fst (fst reply)) (snd (fst reply))
                 (snd reply) = Returns None)).

(** The two cases in which bitbucketHandler itself panics, both after the
    request to the API: the client returned a nil response with a nil
    error, or the reply is accepted and the success handler is nil. *)
Definition bitbucketOwnPanic
    (CurrentUser : http.Client (option oauth2.Token) -> bitbucket.Reply)
    (config : oauth2.Config) (success : option (goji.Handler bitbucket.User))
    (ctx : Context bitbucket.User) : Prop :=
  exists t,
    context.Value ctx context.tokenKey = Some (context.AnyToken t)
    /\ let reply := CurrentUser (oauth2Login.Client config ctx (Some t)) in
       ((snd reply = None /\ snd (fst reply) = None)
        \/ (success = None
            /\ bitbucket.validateResponse (fst (fst reply)) (snd (fst reply))
                 (snd reply) = Returns None)).

(** * Properties *)

(** ** The response validators *)

Section ValidateResponse.

Lemma facebook_validateResponse_err (user : option facebook.User)
    (resp : option http.Response) (e : error) :
  facebook.validateResponse user resp (Some e)
  = Returns (Some facebook.ErrUnableToGetFacebookUser).
Proof. reflexivity. Qed.

Lemma bitbucket_validateResponse_err (user : option bitbucket.User)
    (resp : option http.Response) (e : error) :
  bitbucket.validateResponse user resp (Some e)
  = Returns (Some bitbucket.ErrUnableToGetBitbucketUser).
Proof. reflexivity. Qed.

Lemma facebook_validateResponse_status (user : option facebook.User)
    (r : http.Response) (err : option error) :
  http.StatusCode r <> http.StatusOK ->
  facebook.validateResponse user (Some r) err
  = Returns (Some facebook.ErrUnableToGetFacebookUser).
Proof.
  intros Hcode. destruct err as [e|]; [reflexivity|].
  unfold facebook.validateResponse.
  destruct (Z.eqb_spec (http.StatusCode r) http.StatusOK) as [Heq|Hne];
    [contradiction | reflexivity].
Qed.

Lemma bitbucket_validateResponse_status (user : option bitbucket.User)
    (r : http.Response) (err : option error) :
  http.StatusCode r <> http.StatusOK ->
  bitbucket.validateResponse user (Some r) err
  = Returns (Some bitbucket.ErrUnableToGetBitbucketUser).
Proof.
  intros Hcode. destruct err as [e|]; [reflexivity|].
  unfold bitbucket.validateResponse.
  destruct (Z.eqb_spec (http.StatusCode r) http.StatusOK) as [Heq|Hne];
    [contradiction | reflexivity].
Qed.

(** Either validator panics exactly on a nil error with a nil response. *)
Lemma facebook_validateResponse_defined (user : option facebook.User)
    (resp : option http.Response) (err : option error) :
  (exists v, facebook.validateResponse user resp err = Returns v)
  <-> (err = None -> resp <> None).
Proof.
  split.
  - intros [v Hv] -> ->. discriminate Hv.
  - intros H. destruct err as [e|].
    + eexists; reflexivity.
    + destruct resp as [r|]; [|exfalso; now apply H].
      unfold facebook.validateResponse.
      destruct (negb _); [eexists; reflexivity|].
      destruct user as [u|]; [|eexists; reflexivity].
      destruct (String.eqb _ _); eexists; reflexivity.
Qed.

Lemma bitbucket_validateResponse_defined (user : option bitbucket.User)
    (resp : option http.Response) (err : option error) :
  (exists v, bitbucket.validateResponse user resp err = Returns v)
  <-> (err = None -> resp <> None).
Proof.
  split.
  - intros [v Hv] -> ->. discriminate Hv.
  - intros H. destruct err as [e|].
    + eexists; reflexivity.
    + destruct resp as [r|]; [|exfalso; now apply H].
      unfold bitbucket.validateResponse.
      destruct (negb _); [eexists; reflexivity|].
      destruct user as [u|]; [|eexists; reflexivity].
      destruct (String.eqb _ _); eexists; reflexivity.
Qed.

(** What either validator returns is nil or its package's own error. *)
Lemma facebook_validateResponse_range (user : option facebook.User)
    (resp : option http.Response) (err v : option error) :
  facebook.validateResponse user resp err = Returns v ->
  v = None \/ v = Some facebook.ErrUnableToGetFacebookUser.
Proof.
  unfold facebook.validateResponse.
  destruct err as [e|]; [intros [= <-]; now right|].
  destruct resp as [r|]; [|discriminate].
  destruct (negb _); [intros [= <-]; now right|].
  destruct user as [u|]; [|intros [= <-]; now right].
  destruct (String.eqb _ _); intros [= <-]; [now right | now left].
Qed.

Lemma bitbucket_validateResponse_range (user : option bitbucket.User)
    (resp : option http.Response) (err v : option error) :
  bitbucket.validateResponse user resp err = Returns v ->
  v = None \/ v = Some bitbucket.ErrUnableToGetBitbucketUser.
Proof.
  unfold bitbucket.validateResponse.
  destruct err as [e|]; [intros [= <-]; now right|].
  destruct resp as [r|]; [|discriminate].
  destruct (negb _); [intros [= <-]; now right|].
  destruct user as [u|]; [|intros [= <-]; now right].
  destruct (String.eqb _ _); intros [= <-]; [now right | now left].
Qed.

End ValidateResponse.

(** C1, amended: on a nil error, a response of status 200 and a non-nil
    user with a non-empty identifier (Facebook: ID, Bitbucket: Username),
    validateResponse returns nil; a non-nil error, a response of another
    status, and, the response being there, a nil user or an empty identifier
    each make it return the package's own error, whatever the other
    components are. *)
Theorem validateResponse_accepts_valid_and_rejects_each_violation :
  (forall (user : option facebook.User) (resp : option http.Response)
          (err : option error),
      (forall r u, err = None -> resp = Some r ->
                   http.StatusCode r = http.StatusOK ->
                   user = Some u -> facebook.ID u <> "" ->
                   facebook.validateResponse user resp err = Returns None)
      /\ (err <> None ->
          facebook.validateResponse user resp err
          = Returns (Some facebook.ErrUnableToGetFacebookUser))
      /\ (forall r, resp = Some r -> http.StatusCode r <> http.StatusOK ->
          facebook.validateResponse user resp err
          = Returns (Some facebook.ErrUnableToGetFacebookUser))
      /\ (forall r, resp = Some r -> user = None ->
          facebook.validateResponse user resp err
          = Returns (Some facebook.ErrUnableToGetFacebookUser))
      /\ (forall r u, resp = Some r -> user = Some u -> facebook.ID u = "" ->
          facebook.validateResponse user resp err
          = Returns (Some facebook.ErrUnableToGetFacebookUser)))
  /\
  (forall (user : option bitbucket.User) (resp : option http.Response)
          (err : option error),
      (forall r u, err = None -> resp = Some r ->
                   http.StatusCode r = http.StatusOK ->
                   user = Some u -> bitbucket.Username u <> "" ->
                   bitbucket.validateResponse user resp err = Returns None)
      /\ (err <> None ->
          bitbucket.validateResponse user resp err
          = Returns (Some bitbucket.ErrUnableToGetBitbucketUser))
      /\ (forall r, resp = Some r -> http.StatusCode r <> http.StatusOK ->
          bitbucket.validateResponse user resp err
          = Returns (Some bitbucket.ErrUnableToGetBitbucketUser))
      /\ (forall r, resp = Some r -> user = None ->
          bitbucket.validateResponse user resp err
          = Returns (Some bitbucket.ErrUnableToGetBitbucketUser))
      /\ (forall r u, resp = Some r -> user = Some u ->
                      bitbucket.Username u = "" ->
          bitbucket.validateResponse user resp err
          = Returns (Some bitbucket.ErrUnableToGetBitbucketUser))).
Proof.
  split; intros user resp err; repeat split.
  - intros r u -> -> Hcode -> Hid. unfold facebook.validateResponse.
    rewrite Hcode. cbn.
    destruct (String.eqb_spec (facebook.ID u) ""); [contradiction | reflexivity].
  - destruct err as [e|]; [intros _ | intros H; now elim H].
    apply facebook_validateResponse_err.
  - intros r -> Hcode. now apply facebook_validateResponse_status.
  - intros r -> ->. destruct err as [e|]; [reflexivity|].
    unfold facebook.validateResponse. now destruct (negb _).
  - intros r u -> -> Hid. destruct err as [e|]; [reflexivity|].
    unfold facebook.validateResponse. rewrite Hid.
    now destruct (negb _).
  - intros r u -> -> Hcode -> Hid. unfold bitbucket.validateResponse.
    rewrite Hcode. cbn.
    destruct (String.eqb_spec (bitbucket.Username u) "");
      [contradiction | reflexivity].
  - destruct err as [e|]; [intros _ | intros H; now elim H].
    apply bitbucket_validateResponse_err.
  - intros r -> Hcode. now apply bitbucket_validateResponse_status.
  - intros r -> ->. destruct err as [e|]; [reflexivity|].
    unfold bitbucket.validateResponse. now destruct (negb _).
  - intros r u -> -> Hid. destruct err as [e|]; [reflexivity|].
    unfold bitbucket.validateResponse. rewrite Hid.
    now destruct (negb _).
Qed.

(** The four assertions of TestValidateResponse, and their Bitbucket
    counterparts, as instances of the theorem. *)
Lemma validateResponse_accepts_valid_and_rejects_each_violation_witness :
  (facebook.validateResponse (Some validUser) (Some validResponse) None
   = Returns None
   /\ facebook.validateResponse (Some validUser) (Some validResponse)
        (Some (fmt.Errorf "Server error"))
      = Returns (Some facebook.ErrUnableToGetFacebookUser)
   /\ facebook.validateResponse (Some validUser) (Some invalidResponse) None
      = Returns (Some facebook.ErrUnableToGetFacebookUser)
   /\ facebook.validateResponse (Some emptyUser) (Some validResponse) None
      = Returns (Some facebook.ErrUnableToGetFacebookUser))
  /\
  (bitbucket.validateResponse (Some validBitbucketUser) (Some validResponse) None
   = Returns None
   /\ bitbucket.validateResponse None (Some validResponse) None
      = Returns (Some bitbucket.ErrUnableToGetBitbucketUser)).
Proof.
  pose proof validateResponse_accepts_valid_and_rejects_each_violation
    as [Hf Hb].
  refine (conj (conj _ (conj _ (conj _ _))) (conj _ _)).
  - destruct (Hf (Some validUser) (Some validResponse) None) as [H _].
    apply (H validResponse validUser); first [reflexivity | discriminate].
  - destruct (Hf (Some validUser) (Some validResponse)
                 (Some (fmt.Errorf "Server error"))) as (_ & H & _).
    apply H. discriminate.
  - destruct (Hf (Some validUser) (Some invalidResponse) None)
      as (_ & _ & H & _).
    apply (H invalidResponse); first [reflexivity | discriminate].
  - destruct (Hf (Some emptyUser) (Some validResponse) None)
      as (_ & _ & _ & _ & H).
    apply (H validResponse emptyUser); reflexivity.
  - destruct (Hb (Some validBitbucketUser) (Some validResponse) None) as [H _].
    apply (H validResponse validBitbucketUser);
      first [reflexivity | discriminate].
  - destruct (Hb None (Some validResponse) None) as (_ & _ & _ & H & _).
    apply (H validResponse); reflexivity.
Defined.

(** C1, as stated, fails: a nil user does not make validateResponse return
    the package's error on every triple.  With a nil error and a nil
    response the status code is read through the nil response first, and
    the call panics. *)
Lemma validateResponse_nil_user_without_response_panics :
  ~ (forall (user : option facebook.User) (resp : option http.Response)
            (err : option error),
        user = None ->
        facebook.validateResponse user resp err
        = Returns (Some facebook.ErrUnableToGetFacebookUser)).
Proof.
  intros H.
  assert (H1 : facebook.validateResponse None None None
               = Returns (Some facebook.ErrUnableToGetFacebookUser)).
  { apply H. reflexivity. }
  discriminate H1.
Qed.

(** C9: validateResponse is not total: with a nil error and a nil response
    it reads the status code through the nil response and panics, whatever
    the user is; it returns exactly on the triples whose response is non-nil
    whenever the error is nil. *)
Theorem validateResponse_total_iff_response_when_no_error :
  (forall user : option facebook.User,
      facebook.validateResponse user None None = Panics nilDereference)
  /\ (forall (user : option facebook.User) resp err,
         (exists v, facebook.validateResponse user resp err = Returns v)
         <-> (err = None -> resp <> None))
  /\ (forall user : option bitbucket.User,
         bitbucket.validateResponse user None None = Panics nilDereference)
  /\ (forall (user : option bitbucket.User) resp err,
         (exists v, bitbucket.validateResponse user resp err = Returns v)
         <-> (err = None -> resp <> None)).
Proof.
  repeat split; try reflexivity;
    try apply facebook_validateResponse_defined;
    try apply bitbucket_validateResponse_defined.
Qed.

Lemma validateResponse_total_iff_response_when_no_error_witness :
  facebook.validateResponse (Some validUser) None None = Panics nilDereference
  /\ (exists v,
         facebook.validateResponse (Some validUser) (Some validResponse) None
         = Returns v)
  /\ (exists v,
         bitbucket.validateResponse None None (Some (fmt.Errorf "Server error"))
         = Returns v).
Proof.
  pose proof validateResponse_total_iff_response_when_no_error
    as (Hf & Hfd & _ & Hbd).
  split; [apply Hf | split].
  - apply Hfd. intros _. discriminate.
  - apply Hbd. intros H. discriminate H.
Defined.

(** C10: where it returns, validateResponse returns nil or its package's own
    error variable: never an error made while it runs, never the incoming
    error unless that is the package's variable itself, never the other
    package's variable; the two variables are distinct values. *)
Theorem validateResponse_returns_nil_or_own_sentinel :
  (forall (user : option facebook.User) resp err v,
      facebook.validateResponse user resp err = Returns v ->
      (v = None \/ v = Some facebook.ErrUnableToGetFacebookUser)
      /\ (forall text, v <> Some (fmt.Errorf text))
      /\ v <> Some bitbucket.ErrUnableToGetBitbucketUser
      /\ (forall e, err = Some e -> e <> facebook.ErrUnableToGetFacebookUser ->
                    v <> Some e))
  /\ (forall (user : option bitbucket.User) resp err v,
         bitbucket.validateResponse user resp err = Returns v ->
         (v = None \/ v = Some bitbucket.ErrUnableToGetBitbucketUser)
         /\ (forall text, v <> Some (fmt.Errorf text))
         /\ v <> Some facebook.ErrUnableToGetFacebookUser
         /\ (forall e, err = Some e ->
                       e <> bitbucket.ErrUnableToGetBitbucketUser ->
                       v <> Some e))
  /\ facebook.ErrUnableToGetFacebookUser <> bitbucket.ErrUnableToGetBitbucketUser.
Proof.
  split; [|split].
  - intros user resp err v Hv.
    apply facebook_validateResponse_range in Hv.
    split; [exact Hv|].
    destruct Hv as [-> | ->]; repeat split; try discriminate.
    intros e _ Hne [= <-]. now apply Hne.
  - intros user resp err v Hv.
    apply bitbucket_validateResponse_range in Hv.
    split; [exact Hv|].
    destruct Hv as [-> | ->]; repeat split; try discriminate.
    intros e _ Hne [= <-]. now apply Hne.
  - discriminate.
Qed.

Lemma validateResponse_returns_nil_or_own_sentinel_witness :
  Some facebook.ErrUnableToGetFacebookUser = None
  \/ Some facebook.ErrUnableToGetFacebookUser
     = Some facebook.ErrUnableToGetFacebookUser.
Proof.
  pose proof validateResponse_returns_nil_or_own_sentinel as [Hf _].
  apply (Hf (Some validUser) (Some validResponse)
            (Some (fmt.Errorf "Server error"))
            (Some facebook.ErrUnableToGetFacebookUser)).
  reflexivity.
Defined.

(** ** Calls to handlers *)

Section Serve.
Variable U : Type.
Implicit Types (ctx : Context U) (req : http.Request) (s : World U).

Lemma ServeHTTP_leaf site role fn ctx req s :
  goji.ServeHTTP site role (Some (goji.leaf fn)) ctx req s
  = (Returns tt, {| writer := fn ctx req (writer s);
                    calls := calls s ++ [Serve site role ctx] |}).
Proof. reflexivity. Qed.

Lemma ServeHTTP_failure_in_use site
    (failure : option (Context U -> http.Request ->
                       http.ResponseWriter -> http.ResponseWriter))
    ctx req s :
  goji.ServeHTTP site Failure
    match option_map goji.leaf failure with
    | Some _ => option_map goji.leaf failure
    | None => Some gologin.DefaultFailureHandler
    end ctx req s
  = (Returns tt, {| writer := gologin.failureWrites failure ctx req (writer s);
                    calls := calls s ++ [Serve site Failure ctx] |}).
Proof.
  destruct failure as [fn|]; [reflexivity|].
  unfold goji.ServeHTTP, gologin.DefaultFailureHandler, goji.HandlerFunc,
    gologin.failureHandler, gologin.failureWrites.
  cbn. now destruct (gologin.ErrorFromContext ctx).
Qed.

Lemma ErrorFromContext_WithError ctx (e : error) :
  gologin.ErrorFromContext (gologin.WithError ctx e) = Some e.
Proof. reflexivity. Qed.

(** A context carries an OAuth2 token or it does not. *)
Lemma token_or_not ctx :
  (exists t, context.Value ctx context.tokenKey = Some (context.AnyToken t))
  \/ (forall t, context.Value ctx context.tokenKey <> Some (context.AnyToken t)).
Proof.
  destruct (context.Value ctx context.tokenKey) as [[e|t|x|u]|];
    try (right; intros t'; discriminate).
  left. now exists t.
Qed.

Lemma TokenFromContext_missing ctx :
  (forall t, context.Value ctx context.tokenKey <> Some (context.AnyToken t)) ->
  oauth2Login.TokenFromContext ctx
  = (None, Some (fmt.Errorf "oauth2: Context missing Token")).
Proof.
  intros H. unfold oauth2Login.TokenFromContext.
  destruct (context.Value ctx context.tokenKey) as [[e|t|x|u]|];
    try reflexivity.
  now elim (H t).
Qed.

Lemma TokenFromContext_present ctx t :
  context.Value ctx context.tokenKey = Some (context.AnyToken t) ->
  oauth2Login.TokenFromContext ctx = (Some t, None).
Proof. intros H. unfold oauth2Login.TokenFromContext. now rewrite H. Qed.

End Serve.

(** ** The exits of facebookHandler *)

Section FacebookHandler.
Variable Me : http.Client (option oauth2.Token) -> facebook.Reply.
Variable config : oauth2.Config.
Variable failure : option (Context facebook.User -> http.Request ->
                           http.ResponseWriter -> http.ResponseWriter).
Implicit Types (ctx : Context facebook.User) (req : http.Request)
  (w : http.ResponseWriter) (success : option (goji.Handler facebook.User)).

Lemma facebookHandler_no_token success ctx req w :
  (forall t, context.Value ctx context.tokenKey <> Some (context.AnyToken t)) ->
  let ctx' := gologin.WithError ctx (fmt.Errorf "oauth2: Context missing Token") in
  run (facebook.facebookHandler Me config success (option_map goji.leaf failure))
      ctx req w
  = (Returns tt,
     {| writer := gologin.failureWrites failure ctx' req w;
        calls := [Serve "facebookHandler" Failure ctx'] |}).
Proof.
  intros H ctx'.
  unfold run, facebook.facebookHandler, goji.HandlerFunc.
  rewrite (TokenFromContext_missing ctx H).
  now rewrite ServeHTTP_failure_in_use.
Qed.

Lemma facebookHandler_panics success ctx req w t user resp err why :
  context.Value ctx context.tokenKey = Some (context.AnyToken t) ->
  Me (oauth2Login.Client config ctx (Some t)) = (user, resp, err) ->
  facebook.validateResponse user resp err = Panics why ->
  run (facebook.facebookHandler Me config success (option_map goji.leaf failure))
      ctx req w
  = (Panics why,
     {| writer := w;
        calls := [APICall "facebook: me" (oauth2.AccessToken t)] |}).
Proof.
  intros Ht HApi Hv.
  unfold run, facebook.facebookHandler, goji.HandlerFunc.
  rewrite (TokenFromContext_present ctx Ht). cbn.
  rewrite HApi, Hv. reflexivity.
Qed.

Lemma facebookHandler_rejected success ctx req w t user resp err e :
  context.Value ctx context.tokenKey = Some (context.AnyToken t) ->
  Me (oauth2Login.Client config ctx (Some t)) = (user, resp, err) ->
  facebook.validateResponse user resp err = Returns (Some e) ->
  let ctx' := gologin.WithError ctx e in
  run (facebook.facebookHandler Me config success (option_map goji.leaf failure))
      ctx req w
  = (Returns tt,
     {| writer := gologin.failureWrites failure ctx' req w;
        calls := [APICall "facebook: me" (oauth2.AccessToken t);
                  Serve "facebookHandler" Failure ctx'] |}).
Proof.
  intros Ht HApi Hv ctx'.
  unfold run, facebook.facebookHandler, goji.HandlerFunc.
  rewrite (TokenFromContext_present ctx Ht). cbn.
  rewrite HApi, Hv. cbn.
  now rewrite ServeHTTP_failure_in_use.
Qed.

Lemma facebookHandler_accepted fn ctx req w t user resp err :
  context.Value ctx context.tokenKey = Some (context.AnyToken t) ->
  Me (oauth2Login.Client config ctx (Some t)) = (user, resp, err) ->
  facebook.validateResponse user resp err = Returns None ->
  let ctx' := facebook.WithUser ctx user in
  run (facebook.facebookHandler Me config (Some (goji.leaf fn))
         (option_map goji.leaf failure)) ctx req w
  = (Returns tt,
     {| writer := fn ctx' req w;
        calls := [APICall "facebook: me" (oauth2.AccessToken t);
                  Serve "facebookHandler" Success ctx'] |}).
Proof.
  intros Ht HApi Hv ctx'.
  unfold run, facebook.facebookHandler, goji.HandlerFunc.
  rewrite (TokenFromContext_present ctx Ht). cbn.
  rewrite HApi, Hv. reflexivity.
Qed.

End FacebookHandler.

(** ** The exits of bitbucketHandler *)

Section BitbucketHandler.
Variable CurrentUser : http.Client (option oauth2.Token) -> bitbucket.Reply.
Variable config : oauth2.Config.
Variable failure : option (Context bitbucket.User -> http.Request ->
                           http.ResponseWriter -> http.ResponseWriter).
Implicit Types (ctx : Context bitbucket.User) (req : http.Request)
  (w : http.ResponseWriter) (success : option (goji.Handler bitbucket.User)).

Lemma bitbucketHandler_no_token success ctx req w :
  (forall t, context.Value ctx context.tokenKey <> Some (context.AnyToken t)) ->
  let ctx' := gologin.WithError ctx (fmt.Errorf "oauth2: Context missing Token") in
  run (bitbucket.bitbucketHandler CurrentUser config success (option_map goji.leaf failure))
      ctx req w
  = (Returns tt,
     {| writer := gologin.failureWrites failure ctx' req w;
        calls := [Serve "bitbucketHandler" Failure ctx'] |}).
Proof.
  intros H ctx'.
  unfold run, bitbucket.bitbucketHandler, goji.HandlerFunc.
  rewrite (TokenFromContext_missing ctx H).
  now rewrite ServeHTTP_failure_in_use.
Qed.

Lemma bitbucketHandler_panics success ctx req w t user resp err why :
  context.Value ctx context.tokenKey = Some (context.AnyToken t) ->
  CurrentUser (oauth2Login.Client config ctx (Some t)) = (user, resp, err) ->
  bitbucket.validateResponse user resp err = Panics why ->
  run (bitbucket.bitbucketHandler CurrentUser config success (option_map goji.leaf failure))
      ctx req w
  = (Panics why,
     {| writer := w;
        calls := [APICall "bitbucket: user" (oauth2.AccessToken t)] |}).
Proof.
  intros Ht HApi Hv.
  unfold run, bitbucket.bitbucketHandler, goji.HandlerFunc.
  rewrite (TokenFromContext_present ctx Ht). cbn.
  rewrite HApi, Hv. reflexivity.
Qed.

Lemma bitbucketHandler_rejected success ctx req w t user resp err e :
  context.Value ctx context.tokenKey = Some (context.AnyToken t) ->
  CurrentUser (oauth2Login.Client config ctx (Some t)) = (user, resp, err) ->
  bitbucket.validateResponse user resp err = Returns (Some e) ->
  let ctx' := gologin.WithError ctx e in
  run (bitbucket.bitbucketHandler CurrentUser config success (option_map goji.leaf failure))
      ctx req w
  = (Returns tt,
     {| writer := gologin.failureWrites failure ctx' req w;
        calls := [APICall "bitbucket: user" (oauth2.AccessToken t);
                  Serve "bitbucketHandler" Failure ctx'] |}).
Proof.
  intros Ht HApi Hv ctx'.
  unfold run, bitbucket.bitbucketHandler, goji.HandlerFunc.
  rewrite (TokenFromContext_present ctx Ht). cbn.
  rewrite HApi, Hv. cbn.
  now rewrite ServeHTTP_failure_in_use.
Qed.

Lemma bitbucketHandler_accepted fn ctx req w t user resp err :
  context.Value ctx context.tokenKey = Some (context.AnyToken t) ->
  CurrentUser (oauth2Login.Client config ctx (Some t)) = (user, resp, err) ->
  bitbucket.validateResponse user resp err = Returns None ->
  let ctx' := bitbucket.WithUser ctx user in
  run (bitbucket.bitbucketHandler CurrentUser config (Some (goji.leaf fn))
         (option_map goji.leaf failure)) ctx req w
  = (Returns tt,
     {| writer := fn ctx' req w;
        calls := [APICall "bitbucket: user" (oauth2.AccessToken t);
                  Serve "bitbucketHandler" Success ctx'] |}).
Proof.
  intros Ht HApi Hv ctx'.
  unfold run, bitbucket.bitbucketHandler, goji.HandlerFunc.
  rewrite (TokenFromContext_present ctx Ht). cbn.
  rewrite HApi, Hv. reflexivity.
Qed.

End BitbucketHandler.

(** ** The exits of githubHandler *)

Section GithubHandler.
Variable Get : http.Client (option oauth2.Token) -> github.Reply.
Variable config : oauth2.Config.
Variable failure : option (Context github.User -> http.Request ->
                           http.ResponseWriter -> http.ResponseWriter).
Implicit Types (ctx : Context github.User) (req : http.Request)
  (w : http.ResponseWriter) (success : option (goji.Handler github.User)).

Lemma githubHandler_no_token success ctx req w :
  (forall t, context.Value ctx context.tokenKey <> Some (context.AnyToken t)) ->
  let ctx' := gologin.WithError ctx (fmt.Errorf "oauth2: Context missing Token") in
  run (github.githubHandler Get config success (option_map goji.leaf failure))
      ctx req w
  = (Returns tt,
     {| writer := gologin.failureWrites failure ctx' req w;
        calls := [Serve "githubHandler" Failure ctx'] |}).
Proof.
  intros H ctx'.
  unfold run, github.githubHandler, goji.HandlerFunc.
  rewrite (TokenFromContext_missing ctx H).
  now rewrite ServeHTTP_failure_in_use.
Qed.

Lemma githubHandler_panics success ctx req w t user resp err why :
  context.Value ctx context.tokenKey = Some (context.AnyToken t) ->
  Get (oauth2Login.Client config ctx (Some t)) = (user, resp, err) ->
  github.validateResponse user resp err = Panics why ->
  run (github.githubHandler Get config success (option_map goji.leaf failure))
      ctx req w
  = (Panics why,
     {| writer := w;
        calls := [APICall "github: user" (oauth2.AccessToken t)] |}).
Proof.
  intros Ht HApi Hv.
  unfold run, github.githubHandler, goji.HandlerFunc.
  rewrite (TokenFromContext_present ctx Ht). cbn.
  rewrite HApi, Hv. reflexivity.
Qed.

Lemma githubHandler_rejected success ctx req w t user resp err e :
  context.Value ctx context.tokenKey = Some (context.AnyToken t) ->
  Get (oauth2Login.Client config ctx (Some t)) = (user, resp, err) ->
  github.validateResponse user resp err = Returns (Some e) ->
  let ctx' := gologin.WithError ctx e in
  run (github.githubHandler Get config success (option_map goji.leaf failure))
      ctx req w
  = (Returns tt,
     {| writer := gologin.failureWrites failure ctx' req w;
        calls := [APICall "github: user" (oauth2.AccessToken t);
                  Serve "githubHandler" Failure ctx'] |}).
Proof.
  intros Ht HApi Hv ctx'.
  unfold run, github.githubHandler, goji.HandlerFunc.
  rewrite (TokenFromContext_present ctx Ht). cbn.
  rewrite HApi, Hv. cbn.
  now rewrite ServeHTTP_failure_in_use.
Qed.

Lemma githubHandler_accepted fn ctx req w t user resp err :
  context.Value ctx context.tokenKey = Some (context.AnyToken t) ->
  Get (oauth2Login.Client config ctx (Some t)) = (user, resp, err) ->
  github.validateResponse user resp err = Returns None ->
  let ctx' := github.WithUser ctx user in
  run (github.githubHandler Get config (Some (goji.leaf fn))
         (option_map goji.leaf failure)) ctx req w
  = (Returns tt,
     {| writer := fn ctx' req w;
        calls := [APICall "github: user" (oauth2.AccessToken t);
                  Serve "githubHandler" Success ctx'] |}).
Proof.
  intros Ht HApi Hv ctx'.
  unfold run, github.githubHandler, goji.HandlerFunc.
  rewrite (TokenFromContext_present ctx Ht). cbn.
  rewrite HApi, Hv. reflexivity.
Qed.

End GithubHandler.

(** ** The user-fetch handlers *)

Lemma facebook_panics_unconventional (user : option facebook.User) resp err why :
  facebook.validateResponse user resp err = Panics why ->
  ~ conventional (user, resp, err).
Proof.
  intros Hv Hc.
  destruct (proj2 (facebook_validateResponse_defined user resp err) Hc) as [v Hr].
  congruence.
Qed.

Lemma bitbucket_panics_unconventional (user : option bitbucket.User) resp err why :
  bitbucket.validateResponse user resp err = Panics why ->
  ~ conventional (user, resp, err).
Proof.
  intros Hv Hc.
  destruct (proj2 (bitbucket_validateResponse_defined user resp err) Hc) as [v Hr].
  congruence.
Qed.

Lemma facebookHandler_one_call Me config fn failure ctx req w :
  let out :=
    run (facebook.facebookHandler Me config (Some (goji.leaf fn))
           (option_map goji.leaf failure)) ctx req w in
  (invocations Success (log out) + invocations Failure (log out) <= 1)%nat
  /\ ((forall c, conventional (Me c)) ->
      result out = Returns tt
      /\ (invocations Success (log out) + invocations Failure (log out) = 1)%nat).
Proof.
  destruct (token_or_not ctx) as [[t Ht] | Hno].
  - destruct (Me (oauth2Login.Client config ctx (Some t)))
      as [[user resp] err] eqn:HApi.
    destruct (facebook.validateResponse user resp err) as [[e|]|why] eqn:Hv.
    + rewrite (facebookHandler_rejected Me config failure (Some (goji.leaf fn))
                 ctx req w Ht HApi Hv).
      cbn. split; [lia | intros _; split; [reflexivity | lia]].
    + rewrite (facebookHandler_accepted Me config failure fn ctx req w Ht HApi Hv).
      cbn. split; [lia | intros _; split; [reflexivity | lia]].
    + rewrite (facebookHandler_panics Me config failure (Some (goji.leaf fn))
                 ctx req w Ht HApi Hv).
      cbn. split; [lia|]. intros Hconv.
      elim (facebook_panics_unconventional Hv).
      rewrite <- HApi. apply Hconv.
  - rewrite (facebookHandler_no_token Me config failure (Some (goji.leaf fn))
               ctx req w Hno).
    cbn. split; [lia | intros _; split; [reflexivity | lia]].
Qed.

Lemma bitbucketHandler_one_call CurrentUser config fn failure ctx req w :
  let out :=
    run (bitbucket.bitbucketHandler CurrentUser config (Some (goji.leaf fn))
           (option_map goji.leaf failure)) ctx req w in
  (invocations Success (log out) + invocations Failure (log out) <= 1)%nat
  /\ ((forall c, conventional (CurrentUser c)) ->
      result out = Returns tt
      /\ (invocations Success (log out) + invocations Failure (log out) = 1)%nat).
Proof.
  destruct (token_or_not ctx) as [[t Ht] | Hno].
  - destruct (CurrentUser (oauth2Login.Client config ctx (Some t)))
      as [[user resp] err] eqn:HApi.
    destruct (bitbucket.validateResponse user resp err) as [[e|]|why] eqn:Hv.
    + rewrite (bitbucketHandler_rejected CurrentUser config failure
                 (Some (goji.leaf fn)) ctx req w Ht HApi Hv).
      cbn. split; [lia | intros _; split; [reflexivity | lia]].
    + rewrite (bitbucketHandler_accepted CurrentUser config failure fn
                 ctx req w Ht HApi Hv).
      cbn. split; [lia | intros _; split; [reflexivity | lia]].
    + rewrite (bitbucketHandler_panics CurrentUser config failure
                 (Some (goji.leaf fn)) ctx req w Ht HApi Hv).
      cbn. split; [lia|]. intros Hconv.
      elim (bitbucket_panics_unconventional Hv).
      rewrite <- HApi. apply Hconv.
  - rewrite (bitbucketHandler_no_token CurrentUser config failure
               (Some (goji.leaf fn)) ctx req w Hno).
    cbn. split; [lia | intros _; split; [reflexivity | lia]].
Qed.

(** C3: on a context that carries no OAuth2 token, facebookHandler,
    bitbucketHandler and githubHandler call the failure handler, once, on
    the context extended with the missing-token error of TokenFromContext
    ("oauth2: Context missing Token"); the success handler is not called and
    no request is made to the provider's API. *)
Theorem user_fetch_handler_without_token_fails_before_any_api_call :
  (forall Me config success failure (ctx : Context facebook.User) req w,
      (forall t, context.Value ctx context.tokenKey <> Some (context.AnyToken t)) ->
      let missing := fmt.Errorf "oauth2: Context missing Token" in
      let ctx' := gologin.WithError ctx missing in
      let out :=
        run (facebook.facebookHandler Me config success
               (option_map goji.leaf failure)) ctx req w in
      result out = Returns tt
      /\ log out = [Serve "facebookHandler" Failure ctx']
      /\ gologin.ErrorFromContext ctx' = Some missing
      /\ finalWriter out = gologin.failureWrites failure ctx' req w
      /\ invocations Failure (log out) = 1%nat
      /\ invocations Success (log out) = 0%nat
      /\ apiCalls (log out) = 0%nat)
  /\
  (forall CurrentUser config success failure (ctx : Context bitbucket.User) req w,
      (forall t, context.Value ctx context.tokenKey <> Some (context.AnyToken t)) ->
      let missing := fmt.Errorf "oauth2: Context missing Token" in
      let ctx' := gologin.WithError ctx missing in
      let out :=
        run (bitbucket.bitbucketHandler CurrentUser config success
               (option_map goji.leaf failure)) ctx req w in
      result out = Returns tt
      /\ log out = [Serve "bitbucketHandler" Failure ctx']
      /\ gologin.ErrorFromContext ctx' = Some missing
      /\ finalWriter out = gologin.failureWrites failure ctx' req w
      /\ invocations Failure (log out) = 1%nat
      /\ invocations Success (log out) = 0%nat
      /\ apiCalls (log out) = 0%nat)
  /\
  (forall Get config success failure (ctx : Context github.User) req w,
      (forall t, context.Value ctx context.tokenKey <> Some (context.AnyToken t)) ->
      let missing := fmt.Errorf "oauth2: Context missing Token" in
      let ctx' := gologin.WithError ctx missing in
      let out :=
        run (github.githubHandler Get config success
               (option_map goji.leaf failure)) ctx req w in
      result out = Returns tt
      /\ log out = [Serve "githubHandler" Failure ctx']
      /\ gologin.ErrorFromContext ctx' = Some missing
      /\ finalWriter out = gologin.failureWrites failure ctx' req w
      /\ invocations Failure (log out) = 1%nat
      /\ invocations Success (log out) = 0%nat
      /\ apiCalls (log out) = 0%nat).
Proof.
  split; [|split].
  - intros Me config success failure ctx req w Hno missing ctx' out.
    subst out.
    rewrite (facebookHandler_no_token Me config failure success ctx req w Hno).
    repeat split.
  - intros CurrentUser config success failure ctx req w Hno missing ctx' out.
    subst out.
    rewrite (bitbucketHandler_no_token CurrentUser config failure success
               ctx req w Hno).
    repeat split.
  - intros Get config success failure ctx req w Hno missing ctx' out.
    subst out.
    rewrite (githubHandler_no_token Get config failure success ctx req w Hno).
    repeat split.
Qed.

(** C4: when the context carries a token and the provider's user endpoint
    answers with status 500, whatever else the client returns with that
    response, facebookHandler and bitbucketHandler call the failure handler,
    once, on the context extended with the package's own error
    (ErrUnableToGetFacebookUser, ErrUnableToGetBitbucketUser), which is the
    error read back from that context; the success handler is not called. *)
Theorem user_fetch_handler_fails_with_sentinel_on_status_500 :
  (forall Me config success failure (ctx : Context facebook.User) req w
          t user r err,
      context.Value ctx context.tokenKey = Some (context.AnyToken t) ->
      Me (oauth2Login.Client config ctx (Some t)) = (user, Some r, err) ->
      http.StatusCode r = http.StatusInternalServerError ->
      let ctx' := gologin.WithError ctx facebook.ErrUnableToGetFacebookUser in
      let out :=
        run (facebook.facebookHandler Me config success
               (option_map goji.leaf failure)) ctx req w in
      result out = Returns tt
      /\ log out = [APICall "facebook: me" (oauth2.AccessToken t);
                    Serve "facebookHandler" Failure ctx']
      /\ gologin.ErrorFromContext ctx'
         = Some facebook.ErrUnableToGetFacebookUser
      /\ finalWriter out = gologin.failureWrites failure ctx' req w
      /\ invocations Failure (log out) = 1%nat
      /\ invocations Success (log out) = 0%nat)
  /\
  (forall CurrentUser config success failure (ctx : Context bitbucket.User) req w
          t user r err,
      context.Value ctx context.tokenKey = Some (context.AnyToken t) ->
      CurrentUser (oauth2Login.Client config ctx (Some t)) = (user, Some r, err) ->
      http.StatusCode r = http.StatusInternalServerError ->
      let ctx' := gologin.WithError ctx bitbucket.ErrUnableToGetBitbucketUser in
      let out :=
        run (bitbucket.bitbucketHandler CurrentUser config success
               (option_map goji.leaf failure)) ctx req w in
      result out = Returns tt
      /\ log out = [APICall "bitbucket: user" (oauth2.AccessToken t);
                    Serve "bitbucketHandler" Failure ctx']
      /\ gologin.ErrorFromContext ctx'
         = Some bitbucket.ErrUnableToGetBitbucketUser
      /\ finalWriter out = gologin.failureWrites failure ctx' req w
      /\ invocations Failure (log out) = 1%nat
      /\ invocations Success (log out) = 0%nat).
Proof.
  split.
  - intros Me config success failure ctx req w t user r err Ht HApi Hcode
      ctx' out.
    assert (Hv : facebook.validateResponse user (Some r) err
                 = Returns (Some facebook.ErrUnableToGetFacebookUser)).
    { apply facebook_validateResponse_status. rewrite Hcode. discriminate. }
    subst out.
    rewrite (facebookHandler_rejected Me config failure success ctx req w
               Ht HApi Hv).
    repeat split.
  - intros CurrentUser config success failure ctx req w t user r err Ht HApi
      Hcode ctx' out.
    assert (Hv : bitbucket.validateResponse user (Some r) err
                 = Returns (Some bitbucket.ErrUnableToGetBitbucketUser)).
    { apply bitbucket_validateResponse_status. rewrite Hcode. discriminate. }
    subst out.
    rewrite (bitbucketHandler_rejected CurrentUser config failure success
               ctx req w Ht HApi Hv).
    repeat split.
Qed.

(** ** The exits of the Twitter Token Stage *)

Section TwitterHandler.
Variable VerifyCredentials : http.Client (string * string) -> twitter.Reply.
Variable config : oauth1Login.Config.
Variable failure : option (Context twitter.User -> http.Request ->
                           http.ResponseWriter -> http.ResponseWriter).
Implicit Types (ctx : Context twitter.User) (req : http.Request)
  (w : http.ResponseWriter) (success : option (goji.Handler twitter.User)).

Lemma AccessTokenFromContext_WithAccessToken ctx accessToken accessSecret :
  oauth1Login.AccessTokenFromContext
    (oauth1Login.WithAccessToken ctx accessToken accessSecret)
  = (accessToken, accessSecret, None).
Proof. reflexivity. Qed.

Lemma AccessTokenFromContext_WithUser ctx user :
  oauth1Login.AccessTokenFromContext (twitter.WithUser ctx user)
  = oauth1Login.AccessTokenFromContext ctx.
Proof. reflexivity. Qed.

Lemma TokenHandler_not_POST success ctx req w :
  http.Method req <> "POST" ->
  let ctx' := gologin.WithError ctx (fmt.Errorf "Method not allowed") in
  run (twitter.TokenHandler VerifyCredentials config success
         (option_map goji.leaf failure)) ctx req w
  = (Returns tt,
     {| writer := gologin.failureWrites failure ctx' req
                    (http.WriteHeader http.StatusBadRequest w);
        calls := [Serve "TokenHandler" Failure ctx'] |}).
Proof.
  intros Hm ctx'.
  unfold run, twitter.TokenHandler, goji.HandlerFunc.
  destruct (String.eqb_spec (http.Method req) "POST") as [Heq|_];
    [contradiction|].
  cbn. now rewrite ServeHTTP_failure_in_use.
Qed.

Lemma TokenHandler_invalid success ctx req w e :
  http.Method req = "POST" ->
  twitter.validateToken
    (http.Get (http.PostForm req) twitter.accessTokenField)
    (http.Get (http.PostForm req) twitter.accessTokenSecretField) = Some e ->
  let ctx' := gologin.WithError ctx e in
  run (twitter.TokenHandler VerifyCredentials config success
         (option_map goji.leaf failure)) ctx req w
  = (Returns tt,
     {| writer := gologin.failureWrites failure ctx' req
                    (http.WriteHeader http.StatusBadRequest w);
        calls := [Serve "TokenHandler" Failure ctx'] |}).
Proof.
  intros Hm Hv ctx'.
  unfold run, twitter.TokenHandler, goji.HandlerFunc.
  rewrite Hm, Hv. cbn. now rewrite ServeHTTP_failure_in_use.
Qed.

(** A valid POST hands over to the user-fetch stage, the pair stored in
    the context, before any request to Twitter. *)
Lemma TokenHandler_valid success ctx req w :
  http.Method req = "POST" ->
  let accessToken := http.Get (http.PostForm req) twitter.accessTokenField in
  let accessSecret :=
    http.Get (http.PostForm req) twitter.accessTokenSecretField in
  twitter.validateToken accessToken accessSecret = None ->
  let ctx1 := oauth1Login.WithAccessToken ctx accessToken accessSecret in
  run (twitter.TokenHandler VerifyCredentials config success
         (option_map goji.leaf failure)) ctx req w
  = twitter.verifyHandler VerifyCredentials config success
      (option_map goji.leaf failure) ctx1 req
      {| writer := w; calls := [Serve "TokenHandler" Success ctx1] |}.
Proof.
  intros Hm accessToken accessSecret Hv ctx1.
  unfold run, twitter.TokenHandler, goji.HandlerFunc.
  rewrite Hm. cbn. fold accessToken accessSecret. rewrite Hv. reflexivity.
Qed.

Lemma verifyHandler_rejected success ctx req s accessToken accessSecret
    user resp err e :
  let ctx1 := oauth1Login.WithAccessToken ctx accessToken accessSecret in
  VerifyCredentials (oauth1Login.Client config ctx1 accessToken accessSecret)
  = (user, resp, err) ->
  twitter.validateResponse user resp err = Returns (Some e) ->
  let ctx2 := gologin.WithError ctx1 e in
  twitter.verifyHandler VerifyCredentials config success
    (option_map goji.leaf failure) ctx1 req s
  = (Returns tt,
     {| writer := gologin.failureWrites failure ctx2 req (writer s);
        calls := (calls s
                  ++ [APICall "twitter: account/verify_credentials" accessToken])
                 ++ [Serve "verifyHandler" Failure ctx2] |}).
Proof.
  intros ctx1 HApi Hv ctx2.
  unfold twitter.verifyHandler, goji.HandlerFunc.
  unfold ctx1 at 1. rewrite AccessTokenFromContext_WithAccessToken.
  fold ctx1. cbn. rewrite HApi, Hv. cbn.
  now rewrite ServeHTTP_failure_in_use.
Qed.


End TwitterHandler.



(** A field that the form does not have reads as the empty string. *)
Lemma Get_missing (form : http.Values) (field : string) :
  (forall vs, ~ In (field, vs) form) -> http.Get form field = "".
Proof.
  induction form as [|[k vs] rest IH]; intros Hno; [reflexivity|].
  cbn. destruct (String.eqb_spec k field) as [->|Hne].
  - elim (Hno vs). now left.
  - apply IH. intros vs' Hin. apply (Hno vs'). now right.
Qed.

Lemma validateToken_missing_token (tokenSecret : string) :
  twitter.validateToken "" tokenSecret = Some twitter.ErrMissingToken.
Proof. reflexivity. Qed.

Lemma validateToken_missing_secret (token : string) :
  token <> "" ->
  twitter.validateToken token "" = Some twitter.ErrMissingTokenSecret.
Proof.
  intros H. unfold twitter.validateToken.
  destruct (String.eqb_spec token ""); [contradiction | reflexivity].
Qed.

Lemma validateToken_both (token tokenSecret : string) :
  token <> "" -> tokenSecret <> "" ->
  twitter.validateToken token tokenSecret = None.
Proof.
  intros Ht Hs. unfold twitter.validateToken.
  destruct (String.eqb_spec token ""); [contradiction|].
  destruct (String.eqb_spec tokenSecret ""); [contradiction | reflexivity].
Qed.

(** TestFacebookHandler_MissingCtxToken, on context.Background(). *)
Lemma user_fetch_handler_without_token_fails_before_any_api_call_witness :
  let out :=
    run (facebook.facebookHandler facebookDown config
           (Some testutils.AssertSuccessNotCalled)
           (option_map goji.leaf (Some failureCalled)))
        context.Background getRequest http.NewRecorder in
  (forall t, context.Value (@context.Background facebook.User) context.tokenKey
             <> Some (context.AnyToken t))
  /\ result out = Returns tt
  /\ http.Body (finalWriter out) = "failure handler called"
  /\ apiCalls (log out) = 0%nat.
Proof.
  intros out.
  assert (Hno : forall t,
             context.Value (@context.Background facebook.User) context.tokenKey
             <> Some (context.AnyToken t)).
  { intros t. cbn. discriminate. }
  split; [exact Hno|].
  destruct user_fetch_handler_without_token_fails_before_any_api_call
    as [Hf _].
  destruct (Hf facebookDown config (Some testutils.AssertSuccessNotCalled)
               (Some failureCalled) context.Background getRequest
               http.NewRecorder Hno)
    as (Hr & _ & _ & Hw & _ & _ & Hapi).
  split; [exact Hr | split; [|exact Hapi]].
  unfold out. rewrite Hw. reflexivity.
Defined.

(** TestFacebookHandler_ErrorGettingUser. *)
Lemma user_fetch_handler_fails_with_sentinel_on_status_500_witness :
  let ctx := oauth2Login.WithToken context.Background anyToken in
  let out :=
    run (facebook.facebookHandler facebookDown config
           (Some testutils.AssertSuccessNotCalled)
           (option_map goji.leaf (Some failureCalled)))
        ctx getRequest http.NewRecorder in
  context.Value ctx context.tokenKey = Some (context.AnyToken anyToken)
  /\ http.StatusCode invalidResponse = http.StatusInternalServerError
  /\ gologin.ErrorFromContext
       (gologin.WithError ctx facebook.ErrUnableToGetFacebookUser)
     = Some facebook.ErrUnableToGetFacebookUser
  /\ http.Body (finalWriter out) = "failure handler called"
  /\ invocations Success (log out) = 0%nat.
Proof.
  intros ctx out.
  split; [reflexivity | split; [reflexivity|]].
  destruct user_fetch_handler_fails_with_sentinel_on_status_500 as [Hf _].
  destruct (Hf facebookDown config (Some testutils.AssertSuccessNotCalled)
               (Some failureCalled) ctx getRequest http.NewRecorder
               anyToken (Some emptyUser) invalidResponse None
               eq_refl eq_refl eq_refl)
    as (_ & _ & He & Hw & _ & Hs).
  split; [exact He | split; [|exact Hs]].
  unfold out. rewrite Hw. reflexivity.
Defined.

(** ** The Token Stage *)

Lemma Body_WriteHeader code w : http.Body (http.WriteHeader code w) = http.Body w.
Proof. unfold http.WriteHeader. now destruct (http.wroteHeader w). Qed.

Lemma Body_Fprintln text w :
  http.Body (http.Fprintln text w) = (http.Body w ++ (text ++ http.newline))%string.
Proof.
  unfold http.Fprintln, http.Write. cbn. now rewrite Body_WriteHeader.
Qed.

Lemma Code_Write text w :
  http.Code (http.Write text w)
  = if http.wroteHeader w then http.Code w else http.StatusOK.
Proof. unfold http.Write, http.WriteHeader. now destruct (http.wroteHeader w). Qed.

Lemma Code_Write_after_WriteHeader text code w :
  http.wroteHeader w = false ->
  http.Code (http.Write text (http.WriteHeader code w)) = code.
Proof.
  intros H. unfold http.Write, http.WriteHeader. rewrite H. reflexivity.
Qed.

(** TestTokenHandler_ErrorVerifyingToken: both fields are posted, Twitter is
    down; the caller's success handler is not called (it would report
    "unexpected call to success ContextHandler"), and the body is the
    message of ErrUnableToGetTwitterUser and a newline. *)
Example TestTokenHandler_ErrorVerifyingToken :
  let req := postForm tokenAndSecret in
  let ctx1 :=
    oauth1Login.WithAccessToken (@context.Background twitter.User)
      testTwitterToken testTwitterTokenSecret in
  let out :=
    run (twitter.TokenHandler twitterDown oauth1Config
           (Some testutils.AssertSuccessNotCalled) None)
        context.Background req http.NewRecorder in
  result out = Returns tt
  /\ log out
     = [Serve "TokenHandler" Success ctx1;
        APICall "twitter: account/verify_credentials" testTwitterToken;
        Serve "verifyHandler" Failure
          (gologin.WithError ctx1 twitter.ErrUnableToGetTwitterUser)]
  /\ http.Body (finalWriter out)
     = (Error twitter.ErrUnableToGetTwitterUser ++ http.newline)%string.
Proof. repeat split. Qed.




(** C6: on a POST whose token field is missing or blank (it reads as the
    empty string) the Token Stage calls the failure handler, once, with
    ErrMissingToken; when the token is there and the secret field is missing
    or blank, with ErrMissingTokenSecret.  In both cases the success handler
    is not called, no request is made to Twitter, and under the default
    failure handler the body written is the error's message and a
    newline. *)
Theorem TokenHandler_POST_missing_field_fails :
  forall (VerifyCredentials : http.Client (string * string) -> twitter.Reply)
         config success failure (ctx : Context twitter.User) req w,
    http.Method req = "POST" ->
    let accessToken := http.Get (http.PostForm req) twitter.accessTokenField in
    let accessSecret :=
      http.Get (http.PostForm req) twitter.accessTokenSecretField in
    let out :=
      run (twitter.TokenHandler VerifyCredentials config success
             (option_map goji.leaf failure)) ctx req w in
    let rejectedWith (e : error) :=
      let ctx' := gologin.WithError ctx e in
      result out = Returns tt
      /\ log out = [Serve "TokenHandler" Failure ctx']
      /\ gologin.ErrorFromContext ctx' = Some e
      /\ finalWriter out
         = gologin.failureWrites failure ctx' req
             (http.WriteHeader http.StatusBadRequest w)
      /\ invocations Failure (log out) = 1%nat
      /\ invocations Success (log out) = 0%nat
      /\ apiCalls (log out) = 0%nat
      /\ (failure = None ->
          http.Body (finalWriter out)
          = (http.Body w ++ (Error e ++ http.newline))%string) in
    (accessToken = "" -> rejectedWith twitter.ErrMissingToken)
    /\ (accessToken <> "" -> accessSecret = "" ->
        rejectedWith twitter.ErrMissingTokenSecret).
Proof.
  intros VerifyCredentials config success failure ctx req w Hm accessToken
    accessSecret out rejectedWith.
  split.
  - intros Ht.
    assert (Hv : twitter.validateToken accessToken accessSecret
                 = Some twitter.ErrMissingToken).
    { rewrite Ht. apply validateToken_missing_token. }
    subst rejectedWith out. cbv zeta.
    rewrite (TokenHandler_invalid VerifyCredentials config failure success
               ctx req w Hm Hv).
    repeat split.
    intros ->. unfold finalWriter. cbn [snd writer gologin.failureWrites].
    rewrite ErrorFromContext_WithError, Body_Fprintln, Body_WriteHeader.
    reflexivity.
  - intros Ht Hs.
    assert (Hv : twitter.validateToken accessToken accessSecret
                 = Some twitter.ErrMissingTokenSecret).
    { rewrite Hs. now apply validateToken_missing_secret. }
    subst rejectedWith out. cbv zeta.
    rewrite (TokenHandler_invalid VerifyCredentials config failure success
               ctx req w Hm Hv).
    repeat split.
    intros ->. unfold finalWriter. cbn [snd writer gologin.failureWrites].
    rewrite ErrorFromContext_WithError, Body_Fprintln, Body_WriteHeader.
    reflexivity.
Qed.

(** TestTokenHandler_InvalidFields: a form without the token field, and a
    form without the secret field, under the default failure handler. *)
Lemma TokenHandler_POST_missing_field_fails_witness :
  (http.Get wrongTokenField twitter.accessTokenField = ""
   /\ http.Body
        (finalWriter
           (run (twitter.TokenHandler twitterDown oauth1Config
                   (Some testutils.AssertSuccessNotCalled)
                   (option_map goji.leaf None))
                context.Background (postForm wrongTokenField) http.NewRecorder))
      = (Error twitter.ErrMissingToken ++ http.newline)%string)
  /\
  (http.Get wrongSecretField twitter.accessTokenField <> ""
   /\ http.Get wrongSecretField twitter.accessTokenSecretField = ""
   /\ http.Body
        (finalWriter
           (run (twitter.TokenHandler twitterDown oauth1Config
                   (Some testutils.AssertSuccessNotCalled)
                   (option_map goji.leaf None))
                context.Background (postForm wrongSecretField) http.NewRecorder))
      = (Error twitter.ErrMissingTokenSecret ++ http.newline)%string).
Proof.
  split.
  - assert (Ht : http.Get wrongTokenField twitter.accessTokenField = "").
    { apply Get_missing. intros vs [H|[H|[]]]; discriminate H. }
    split; [exact Ht|].
    destruct (TokenHandler_POST_missing_field_fails twitterDown oauth1Config
                (Some testutils.AssertSuccessNotCalled) None
                context.Background (postForm wrongTokenField) http.NewRecorder
                eq_refl) as [Hmissing _].
    destruct (Hmissing Ht) as (_ & _ & _ & _ & _ & _ & _ & Hbody).
    exact (Hbody eq_refl).
  - assert (Ht : http.Get wrongSecretField twitter.accessTokenField <> "")
      by discriminate.
    assert (Hs : http.Get wrongSecretField twitter.accessTokenSecretField = "").
    { apply Get_missing. intros vs [H|[H|[]]]; discriminate H. }
    split; [exact Ht | split; [exact Hs|]].
    destruct (TokenHandler_POST_missing_field_fails twitterDown oauth1Config
                (Some testutils.AssertSuccessNotCalled) None
                context.Background (postForm wrongSecretField) http.NewRecorder
                eq_refl) as [_ Hmissing].
    destruct (Hmissing Ht Hs) as (_ & _ & _ & _ & _ & _ & _ & Hbody).
    exact (Hbody eq_refl).
Defined.

(** C7, amended: on a request whose method is not POST, the Token Stage
    calls the failure handler, once, on the context extended with the error "Method
    not allowed", which is the error read back from that context; the
    response status is set to 400 before the failure handler runs, the
    success handler is not called and no request is made to Twitter.  Under
    the default failure handler, on a writer whose header is not yet
    written, the response has status 400 and its body is the error's message
    (as a line). *)
Theorem TokenHandler_rejects_methods_other_than_POST :
  forall (VerifyCredentials : http.Client (string * string) -> twitter.Reply)
         config success failure (ctx : Context twitter.User) req w,
    http.Method req <> "POST" ->
    let methodNotAllowed := fmt.Errorf "Method not allowed" in
    let ctx' := gologin.WithError ctx methodNotAllowed in
    let out :=
      run (twitter.TokenHandler VerifyCredentials config success
             (option_map goji.leaf failure)) ctx req w in
    result out = Returns tt
    /\ log out = [Serve "TokenHandler" Failure ctx']
    /\ gologin.ErrorFromContext ctx' = Some methodNotAllowed
    /\ finalWriter out
       = gologin.failureWrites failure ctx' req
           (http.WriteHeader http.StatusBadRequest w)
    /\ invocations Failure (log out) = 1%nat
    /\ invocations Success (log out) = 0%nat
    /\ apiCalls (log out) = 0%nat
    /\ (failure = None -> http.wroteHeader w = false ->
        http.Code (finalWriter out) = http.StatusBadRequest
        /\ http.Body (finalWriter out)
           = (http.Body w ++ (Error methodNotAllowed ++ http.newline))%string).
Proof.
  intros VerifyCredentials config success failure ctx req w Hm
    methodNotAllowed ctx' out.
  subst out.
  rewrite (TokenHandler_not_POST VerifyCredentials config failure success
             ctx req w Hm).
  fold methodNotAllowed. fold ctx'.
  repeat split.
  - subst failure. unfold finalWriter.
    cbn [snd writer gologin.failureWrites].
    unfold ctx'. rewrite ErrorFromContext_WithError.
    unfold http.Fprintln. now apply Code_Write_after_WriteHeader.
  - subst failure. unfold finalWriter.
    cbn [snd writer gologin.failureWrites].
    unfold ctx'. rewrite ErrorFromContext_WithError, Body_Fprintln,
      Body_WriteHeader.
    reflexivity.
Qed.

(** TestTokenHandler_NonPost: http.Get on the handler with a nil failure
    handler. *)
Lemma TokenHandler_rejects_methods_other_than_POST_witness :
  let out :=
    run (twitter.TokenHandler twitterDown oauth1Config
           (Some testutils.AssertSuccessNotCalled) (option_map goji.leaf None))
        context.Background getRequest http.NewRecorder in
  http.Method getRequest <> "POST"
  /\ result out = Returns tt
  /\ http.Code (finalWriter out) = http.StatusBadRequest
  /\ http.Body (finalWriter out) = ("Method not allowed" ++ http.newline)%string
  /\ invocations Success (log out) = 0%nat.
Proof.
  intros out.
  assert (Hm : http.Method getRequest <> "POST") by discriminate.
  split; [exact Hm|].
  destruct (TokenHandler_rejects_methods_other_than_POST twitterDown
              oauth1Config (Some testutils.AssertSuccessNotCalled) None
              context.Background getRequest http.NewRecorder Hm)
    as (Hr & _ & _ & _ & _ & Hs & _ & Hdefault).
  destruct (Hdefault eq_refl eq_refl) as [Hcode Hbody].
  exact (conj Hr (conj Hcode (conj Hbody Hs))).
Defined.

(** C7, as stated, fails: the body of the response is the error message
    only as far as the failure handler writes it.  With a failure handler of
    the caller's, as in TestTokenHandler_NonPostPassesError, the body is
    what that handler writes; and the default failure handler ends the
    message with a newline. *)
Lemma TokenHandler_not_POST_body_is_the_failure_handlers :
  ~ (forall (VerifyCredentials : http.Client (string * string) -> twitter.Reply)
            config success failure (ctx : Context twitter.User) req w,
        http.Method req <> "POST" ->
        http.Body
          (finalWriter
             (run (twitter.TokenHandler VerifyCredentials config success
                     (option_map goji.leaf failure)) ctx req w))
        = Error (fmt.Errorf "Method not allowed"))
  /\ ~ (forall (VerifyCredentials : http.Client (string * string) -> twitter.Reply)
               config success (ctx : Context twitter.User) req w,
           http.Method req <> "POST" ->
           http.Body
             (finalWriter
                (run (twitter.TokenHandler VerifyCredentials config success None)
                     ctx req w))
           = Error (fmt.Errorf "Method not allowed")).
Proof.
  split; intros H.
  - assert (H1 : http.Body
                   (finalWriter
                      (run (twitter.TokenHandler twitterDown oauth1Config
                              (Some testutils.AssertSuccessNotCalled)
                              (option_map goji.leaf (Some failureCalled)))
                           context.Background getRequest http.NewRecorder))
                 = Error (fmt.Errorf "Method not allowed")).
    { apply H. discriminate. }
    discriminate H1.
  - assert (H1 : http.Body
                   (finalWriter
                      (run (twitter.TokenHandler twitterDown oauth1Config
                              (Some testutils.AssertSuccessNotCalled) None)
                           context.Background getRequest http.NewRecorder))
                 = Error (fmt.Errorf "Method not allowed")).
    { apply H. discriminate. }
    discriminate H1.
Qed.

(** ** The default failure handler *)

(** C8: a stage built with a nil failure handler is the stage built with
    the default failure handler, and where it fails it writes what that
    handler writes.  facebookHandler and bitbucketHandler, built with a nil
    failure handler, on a context without a token or on a rejected reply,
    and the Token Stage on a reply rejected by Twitter, call the failure
    handler once and write the message of the error in its context and a
    newline to the response; no status is set, it is left to the writer (the
    status already written, else 200).  On a context whose last error is
    [e], the default failure handler writes the message of [e] and a newline
    to the body, and nothing else, and on a fresh writer the message and the
    newline are the full body. *)
Theorem nil_failure_handler_is_the_default_failure_handler :
  (forall Me config success,
      facebook.facebookHandler Me config success None
      = facebook.facebookHandler Me config success
          (Some gologin.DefaultFailureHandler))
  /\ (forall CurrentUser config success,
         bitbucket.bitbucketHandler CurrentUser config success None
         = bitbucket.bitbucketHandler CurrentUser config success
             (Some gologin.DefaultFailureHandler))
  /\ (forall (U : Type) (ctx : Context U) (req : http.Request) (s : World U)
             (e : error),
         gologin.ErrorFromContext ctx = Some e ->
         gologin.DefaultFailureHandler ctx req s
         = (Returns tt,
            {| writer := http.Write (Error e ++ http.newline) (writer s);
               calls := calls s |})
         /\ http.Body (writer (snd (gologin.DefaultFailureHandler ctx req s)))
            = (http.Body (writer s) ++ (Error e ++ http.newline))%string
         /\ http.Code (writer (snd (gologin.DefaultFailureHandler ctx req s)))
            = (if http.wroteHeader (writer s) then http.Code (writer s)
               else http.StatusOK))
  /\ (forall (U : Type) (ctx : Context U) (req : http.Request) (e : error),
         gologin.ErrorFromContext ctx = Some e ->
         let out := run gologin.DefaultFailureHandler ctx req http.NewRecorder in
         result out = Returns tt
         /\ http.Body (finalWriter out) = (Error e ++ http.newline)%string
         /\ http.Code (finalWriter out) = http.StatusOK
         /\ log out = [])
  /\ (forall (U : Type) (ctx : Context U) (older e : error),
         gologin.ErrorFromContext (gologin.WithError (gologin.WithError ctx older) e)
         = Some e)
  /\ (forall Me config success (ctx : Context facebook.User) req w,
         (forall t, context.Value ctx context.tokenKey
                    <> Some (context.AnyToken t)) ->
         let missing := fmt.Errorf "oauth2: Context missing Token" in
         run (facebook.facebookHandler Me config success None) ctx req w
         = (Returns tt,
            {| writer := http.Write (Error missing ++ http.newline) w;
               calls := [Serve "facebookHandler" Failure
                           (gologin.WithError ctx missing)] |}))
  /\ (forall Me config success (ctx : Context facebook.User) req w
             t user resp err e,
         context.Value ctx context.tokenKey = Some (context.AnyToken t) ->
         Me (oauth2Login.Client config ctx (Some t)) = (user, resp, err) ->
         facebook.validateResponse user resp err = Returns (Some e) ->
         run (facebook.facebookHandler Me config success None) ctx req w
         = (Returns tt,
            {| writer := http.Write (Error e ++ http.newline) w;
               calls := [APICall "facebook: me" (oauth2.AccessToken t);
                         Serve "facebookHandler" Failure
                           (gologin.WithError ctx e)] |}))
  /\ (forall CurrentUser config success (ctx : Context bitbucket.User) req w,
         (forall t, context.Value ctx context.tokenKey
                    <> Some (context.AnyToken t)) ->
         let missing := fmt.Errorf "oauth2: Context missing Token" in
         run (bitbucket.bitbucketHandler CurrentUser config success None)
             ctx req w
         = (Returns tt,
            {| writer := http.Write (Error missing ++ http.newline) w;
               calls := [Serve "bitbucketHandler" Failure
                           (gologin.WithError ctx missing)] |}))
  /\ (forall CurrentUser config success (ctx : Context bitbucket.User) req w
             t user resp err e,
         context.Value ctx context.tokenKey = Some (context.AnyToken t) ->
         CurrentUser (oauth2Login.Client config ctx (Some t))
         = (user, resp, err) ->
         bitbucket.validateResponse user resp err = Returns (Some e) ->
         run (bitbucket.bitbucketHandler CurrentUser config success None)
             ctx req w
         = (Returns tt,
            {| writer := http.Write (Error e ++ http.newline) w;
               calls := [APICall "bitbucket: user" (oauth2.AccessToken t);
                         Serve "bitbucketHandler" Failure
                           (gologin.WithError ctx e)] |}))
  /\ (forall (VerifyCredentials : http.Client (string * string) -> twitter.Reply)
             config success (ctx : Context twitter.User) req w user resp err e,
         http.Method req = "POST" ->
         let accessToken :=
           http.Get (http.PostForm req) twitter.accessTokenField in
         let accessSecret :=
           http.Get (http.PostForm req) twitter.accessTokenSecretField in
         accessToken <> "" ->
         accessSecret <> "" ->
         let ctx1 := oauth1Login.WithAccessToken ctx accessToken accessSecret in
         VerifyCredentials
           (oauth1Login.Client config ctx1 accessToken accessSecret)
         = (user, resp, err) ->
         twitter.validateResponse user resp err = Returns (Some e) ->
         let out :=
           run (twitter.TokenHandler VerifyCredentials config success None)
               ctx req w in
         result out = Returns tt
         /\ finalWriter out = http.Write (Error e ++ http.newline) w
         /\ invocations Failure (log out) = 1%nat)
  /\ (forall text w,
         http.Body (http.Write text w) = (http.Body w ++ text)%string
         /\ http.Code (http.Write text w)
            = (if http.wroteHeader w then http.Code w else http.StatusOK)).
Proof.
  split; [reflexivity|]. split; [reflexivity|].
  split; [|split; [|split; [reflexivity|]]].
  - intros U ctx req s e He.
    assert (Hrun : gologin.DefaultFailureHandler ctx req s
                   = (Returns tt,
                      {| writer := http.Write (Error e ++ http.newline) (writer s);
                         calls := calls s |})).
    { unfold gologin.DefaultFailureHandler, goji.HandlerFunc,
        gologin.failureHandler.
      rewrite He. reflexivity. }
    rewrite Hrun. split; [reflexivity|]. cbn [snd writer]. split.
    + apply (Body_Fprintln (Error e) (writer s)).
    + apply Code_Write.
  - intros U ctx req e He out. subst out.
    unfold run, gologin.DefaultFailureHandler, goji.HandlerFunc,
      gologin.failureHandler.
    rewrite He. repeat split.
  - split; [|split; [|split; [|split; [|split]]]].
    + intros Me config success ctx req w Hno missing.
      exact (facebookHandler_no_token Me config None success ctx req w Hno).
    + intros Me config success ctx req w t user resp err e Ht HApi Hv.
      exact (facebookHandler_rejected Me config None success ctx req w
               Ht HApi Hv).
    + intros CurrentUser config success ctx req w Hno missing.
      exact (bitbucketHandler_no_token CurrentUser config None success
               ctx req w Hno).
    + intros CurrentUser config success ctx req w t user resp err e Ht HApi Hv.
      exact (bitbucketHandler_rejected CurrentUser config None success
               ctx req w Ht HApi Hv).
    + intros VerifyCredentials config success ctx req w user resp err e Hm
        accessToken accessSecret Ht Hs ctx1 HApi Hv out.
      pose proof (validateToken_both Ht Hs) as Hvalid.
      pose proof (TokenHandler_valid VerifyCredentials config None success
                    ctx req w Hm Hvalid) as Hrun.
      pose proof (verifyHandler_rejected VerifyCredentials config None success
                    ctx req
                    {| writer := w;
                       calls := [Serve "TokenHandler" Success ctx1] |}
                    accessToken accessSecret HApi Hv) as Hexit.
      subst out. cbn [option_map] in Hrun, Hexit.
      fold accessToken accessSecret ctx1 in Hrun.
      fold ctx1 in Hexit.
      rewrite Hrun, Hexit. repeat split.
    + intros text w. split.
      * unfold http.Write. cbn. now rewrite Body_WriteHeader.
      * apply Code_Write.
Qed.

(** TestFacebookHandler_MissingCtxToken with a nil failure handler: the body
    is the message of the missing-token error and a newline, and the status
    is the writer's default. *)
Lemma nil_failure_handler_is_the_default_failure_handler_witness :
  let out :=
    run (facebook.facebookHandler facebookDown config
           (Some testutils.AssertSuccessNotCalled) None)
        context.Background getRequest http.NewRecorder in
  (forall t, context.Value (@context.Background facebook.User) context.tokenKey
             <> Some (context.AnyToken t))
  /\ result out = Returns tt
  /\ http.Body (finalWriter out)
     = ("oauth2: Context missing Token" ++ http.newline)%string
  /\ http.Code (finalWriter out) = http.StatusOK
  /\ invocations Failure (log out) = 1%nat.
Proof.
  intros out.
  assert (Hno : forall t,
             context.Value (@context.Background facebook.User) context.tokenKey
             <> Some (context.AnyToken t)).
  { intros t. cbn. discriminate. }
  split; [exact Hno|].
  destruct nil_failure_handler_is_the_default_failure_handler
    as (_ & _ & _ & _ & _ & Hstage & _).
  pose proof (Hstage facebookDown config
                (Some testutils.AssertSuccessNotCalled) context.Background
                getRequest http.NewRecorder Hno) as Hrun.
  unfold out. rewrite Hrun. repeat split.
Defined.

(** ** The tests of the handlers, run on the model *)

(** TestFacebookHandler: the user fetched with the token of the context is
    added to the context of the success handler; the failure handler is not
    called. *)
Example TestFacebookHandler :
  let expectedUser := Some validUser in
  let server (c : http.Client (option oauth2.Token)) : facebook.Reply :=
    (expectedUser, Some validResponse, None) in
  let ctx := oauth2Login.WithToken context.Background anyToken in
  let out :=
    run (facebook.facebookHandler server config
           (Some (goji.leaf successCalled))
           (Some testutils.AssertFailureNotCalled))
        ctx getRequest http.NewRecorder in
  result out = Returns tt
  /\ log out = [APICall "facebook: me" "any-token";
                Serve "facebookHandler" Success
                  (facebook.WithUser ctx expectedUser)]
  /\ context.Value (facebook.WithUser ctx expectedUser) context.userKey
     = Some (context.AnyUser expectedUser)
  /\ http.Body (finalWriter out) = "success handler called".
Proof. repeat split. Qed.

(** TestGithubHandler_ErrorGettingUser, on the modelled githubHandler. *)
Example TestGithubHandler_ErrorGettingUser :
  let server (c : http.Client (option oauth2.Token)) : github.Reply :=
    (Some {| github.ID := None; github.Name := None |},
     Some invalidResponse, None) in
  let ctx := oauth2Login.WithToken context.Background anyToken in
  let out :=
    run (github.githubHandler server config
           (Some testutils.AssertSuccessNotCalled)
           (Some (goji.leaf failureCalled)))
        ctx getRequest http.NewRecorder in
  result out = Returns tt
  /\ log out = [APICall "github: user" "any-token";
                Serve "githubHandler" Failure
                  (gologin.WithError ctx github.ErrUnableToGetGithubUser)]
  /\ http.Body (finalWriter out) = "failure handler called".
Proof. repeat split. Qed.

(** A client that breaks the convention of net/http makes the handler panic
    in validateResponse, after the request and before any handler is
    called. *)
Example facebookHandler_panics_on_nil_response_without_error :
  let server (c : http.Client (option oauth2.Token)) : facebook.Reply :=
    (None, None, None) in
  let ctx := oauth2Login.WithToken context.Background anyToken in
  let out :=
    run (facebook.facebookHandler server config
           (Some (goji.leaf successCalled)) (Some (goji.leaf failureCalled)))
        ctx getRequest http.NewRecorder in
  result out = Panics nilDereference
  /\ log out = [APICall "facebook: me" "any-token"].
Proof. repeat split. Qed.

(** * Further properties of the code *)

(** ** Package facebook: validateResponse and facebookHandler *)

Lemma facebook_validateResponse_nil_inv (user : option facebook.User)
    (resp : option http.Response) (err : option error) :
  facebook.validateResponse user resp err = Returns None
  <-> err = None
      /\ exists r u, resp = Some r /\ http.StatusCode r = http.StatusOK
                     /\ user = Some u /\ facebook.ID u <> "".
Proof.
  unfold facebook.validateResponse. split.
  - destruct err as [e|]; [discriminate|].
    destruct resp as [r|]; [|discriminate].
    destruct (Z.eqb_spec (http.StatusCode r) http.StatusOK) as [Hcode|Hcode];
      [|discriminate].
    destruct user as [u|]; [|discriminate].
    destruct (String.eqb_spec (facebook.ID u) "") as [Hid|Hid]; [discriminate|].
    intros _. split; [reflexivity|]. now exists r, u.
  - intros (-> & r & u & -> & Hcode & -> & Hid).
    rewrite Hcode. cbn.
    destruct (String.eqb_spec (facebook.ID u) ""); [contradiction | reflexivity].
Qed.

Lemma facebook_validateResponse_panics_inv (user : option facebook.User)
    (resp : option http.Response) (err : option error) (why : string) :
  facebook.validateResponse user resp err = Panics why ->
  err = None /\ resp = None /\ why = nilDereference.
Proof.
  unfold facebook.validateResponse.
  destruct err as [e|]; [discriminate|].
  destruct resp as [r|]; [|now intros [= <-]].
  destruct (negb _); [discriminate|].
  destruct user as [u|]; [|discriminate].
  destruct (String.eqb _ _); discriminate.
Qed.

(** X1: facebook's validateResponse returns nil only on a valid triple: it
    returns nil exactly when the error is nil, the response is there with
    status 200, and the user is there with a non-empty ID. *)
Theorem facebook_validateResponse_returns_nil_iff_valid
    (user : option facebook.User) (resp : option http.Response)
    (err : option error) :
  facebook.validateResponse user resp err = Returns None
  <-> err = None
      /\ exists r u, resp = Some r /\ http.StatusCode r = http.StatusOK
                     /\ user = Some u /\ facebook.ID u <> "".
Proof. apply facebook_validateResponse_nil_inv. Qed.

Section FacebookPaths.
Variable Me : http.Client (option oauth2.Token) -> facebook.Reply.
Variable config : oauth2.Config.
Implicit Types (ctx : Context facebook.User) (req : http.Request)
  (s : World facebook.User) (w : http.ResponseWriter).

Lemma facebookHandler_paths
    (success failure : option (goji.Handler facebook.User)) ctx req s :
  facebook.facebookHandler Me config success failure ctx req s
  = match context.Value ctx context.tokenKey with
    | Some (context.AnyToken t) =>
        let s1 :=
          {| writer := writer s;
             calls := calls s ++ [APICall "facebook: me" (oauth2.AccessToken t)] |} in
        let reply := Me (oauth2Login.Client config ctx (Some t)) in
        match facebook.validateResponse (fst (fst reply)) (snd (fst reply))
                (snd reply) with
        | Panics why => (Panics why, s1)
        | Returns (Some e) =>
            goji.ServeHTTP "facebookHandler" Failure
              match failure with
              | Some _ => failure
              | None => Some gologin.DefaultFailureHandler
              end (gologin.WithError ctx e) req s1
        | Returns None =>
            goji.ServeHTTP "facebookHandler" Success success
              (facebook.WithUser ctx (fst (fst reply))) req s1
        end
    | _ =>
        goji.ServeHTTP "facebookHandler" Failure
          match failure with
          | Some _ => failure
          | None => Some gologin.DefaultFailureHandler
          end
          (gologin.WithError ctx (fmt.Errorf "oauth2: Context missing Token"))
          req s
    end.
Proof.
  unfold facebook.facebookHandler, goji.HandlerFunc,
    oauth2Login.TokenFromContext.
  destruct (context.Value ctx context.tokenKey) as [[e|t|x|u]|];
    try reflexivity.
  cbn.
  destruct (Me (oauth2Login.Client config ctx (Some t))) as [[user resp] err].
  cbn [fst snd].
  destruct (facebook.validateResponse user resp err) as [[e|]|why];
    reflexivity.
Qed.

Lemma facebookHandler_exits success failure ctx req s :
  facebookExit Me config success failure ctx req s
    (facebook.facebookHandler Me config (option_map goji.leaf success)
       (option_map goji.leaf failure) ctx req s).
Proof.
  rewrite facebookHandler_paths.
  destruct (token_or_not ctx) as [[t Ht] | Hno].
  - rewrite Ht. cbv zeta.
    destruct (Me (oauth2Login.Client config ctx (Some t)))
      as [[user resp] err] eqn:HApi.
    cbn [fst snd].
    destruct (facebook.validateResponse user resp err) as [[e|]|why] eqn:Hv.
    + destruct (facebook_validateResponse_range _ _ _ Hv) as [[=] | [= ->]].
      rewrite ServeHTTP_failure_in_use.
      apply (@facebookRejected Me config success failure ctx req s t user
               resp err Ht HApi Hv).
    + destruct (proj1 (facebook_validateResponse_nil_inv _ _ _) Hv)
        as (-> & r & u & -> & Hcode & -> & Hid).
      destruct success as [fn|].
      * apply (@facebookAccepted Me config (Some fn) failure ctx req s t u r
                 Ht HApi Hcode Hid).
      * apply (@facebookAccepted Me config None failure ctx req s t u r
                 Ht HApi Hcode Hid).
    + apply (@facebookPanic Me config success failure ctx req s t user resp
               err why Ht HApi Hv).
  - destruct (context.Value ctx context.tokenKey) as [[e|t|x|u]|] eqn:E;
      rewrite <- E in Hno;
      try (rewrite ServeHTTP_failure_in_use;
           apply (@facebookNoToken Me config success failure ctx req s Hno)).
    now elim (Hno t).
Qed.

End FacebookPaths.

Section FacebookRuns.
Variable Me : http.Client (option oauth2.Token) -> facebook.Reply.
Variable config : oauth2.Config.
Variables success failure :
  option (Context facebook.User -> http.Request ->
          http.ResponseWriter -> http.ResponseWriter).
Implicit Types (ctx : Context facebook.User) (req : http.Request)
  (w : http.ResponseWriter).

Lemma facebookHandler_run_exits ctx req w :
  facebookExit Me config success failure ctx req {| writer := w; calls := [] |}
    (run (facebook.facebookHandler Me config (option_map goji.leaf success)
            (option_map goji.leaf failure)) ctx req w).
Proof. apply facebookHandler_exits. Qed.

Ltac facebook_exit ctx req w :=
  let Hexit := fresh "Hexit" in
  let o := fresh "o" in
  let Ho := fresh "Ho" in
  pose proof (facebookHandler_run_exits ctx req w) as Hexit;
  remember (run (facebook.facebookHandler Me config
                   (option_map goji.leaf success)
                   (option_map goji.leaf failure)) ctx req w) as o eqn:Ho;
  clear Ho;
  destruct Hexit as [Hno ctxm | t user resp err why Ht HApi Hv
                     | t user resp err Ht HApi Hv ctxe
                     | t u r Ht HApi Hcode Hid ctxu];
  cbn [app writer calls] in *.

(** X3: facebookHandler calls its success handler only on a validated
    user.  Whenever a call to a success handler is in the log of a run, the
    context carried a token, one request was made to the API with it, before
    the call, the reply had no error, status 200 and a user with a non-empty
    ID, and the success handler got the context extended with that user, in
    which the token and the last error read as before. *)
Theorem facebookHandler_success_context ctx req w site ctx' :
  let out :=
    run (facebook.facebookHandler Me config (option_map goji.leaf success)
           (option_map goji.leaf failure)) ctx req w in
  In (Serve site Success ctx') (log out) ->
  exists t u r fn,
    success = Some fn
    /\ context.Value ctx context.tokenKey = Some (context.AnyToken t)
    /\ Me (oauth2Login.Client config ctx (Some t)) = (Some u, Some r, None)
    /\ http.StatusCode r = http.StatusOK
    /\ facebook.ID u <> ""
    /\ ctx' = facebook.WithUser ctx (Some u)
    /\ context.Value ctx' context.userKey = Some (context.AnyUser (Some u))
    /\ oauth2Login.TokenFromContext ctx' = (Some t, None)
    /\ gologin.ErrorFromContext ctx' = gologin.ErrorFromContext ctx
    /\ out = (Returns tt,
              {| writer := fn ctx' req w;
                 calls := [APICall "facebook: me" (oauth2.AccessToken t);
                           Serve "facebookHandler" Success ctx'] |}).
Proof.
  cbv zeta. facebook_exit ctx req w; intros Hin.
  - destruct Hin as [[=]|[]].
  - destruct Hin as [[=]|[]].
  - destruct Hin as [[=]|[[=]|[]]].
  - destruct success as [fn|].
    + destruct Hin as [[=]|[[= <- <-]|[]]].
      exists t, u, r, fn.
      repeat (split; [first [reflexivity | assumption]|]).
      split.
      * unfold oauth2Login.TokenFromContext, ctxu, facebook.WithUser.
        cbn. now rewrite Ht.
      * split; reflexivity.
    + destruct Hin as [[=]|[]].
Qed.

(** X5: the failure handler of facebookHandler always finds an error in
    its context.  Whenever a call to a failure handler is in the log of a
    run, its context is the incoming one extended with one error, which is
    the missing-token error (no token in the context, no request to the API)
    or ErrUnableToGetFacebookUser (a token, one request); the error of the
    API client itself is not passed on, no user is added, the success
    handler is not called, and the response is written by the failure
    handler alone. *)
Theorem facebookHandler_failure_context ctx req w site ctx' :
  let out :=
    run (facebook.facebookHandler Me config (option_map goji.leaf success)
           (option_map goji.leaf failure)) ctx req w in
  In (Serve site Failure ctx') (log out) ->
  exists e,
    ctx' = gologin.WithError ctx e
    /\ gologin.ErrorFromContext ctx' = Some e
    /\ context.Value ctx' context.userKey = context.Value ctx context.userKey
    /\ context.Value ctx' context.tokenKey = context.Value ctx context.tokenKey
    /\ result out = Returns tt
    /\ finalWriter out = gologin.failureWrites failure ctx' req w
    /\ invocations Failure (log out) = 1%nat
    /\ invocations Success (log out) = 0%nat
    /\ ((e = fmt.Errorf "oauth2: Context missing Token"
         /\ (forall t, context.Value ctx context.tokenKey
                       <> Some (context.AnyToken t))
         /\ apiCalls (log out) = 0%nat)
        \/ (e = facebook.ErrUnableToGetFacebookUser
            /\ (exists t, context.Value ctx context.tokenKey
                          = Some (context.AnyToken t))
            /\ apiCalls (log out) = 1%nat)).
Proof.
  cbv zeta. facebook_exit ctx req w; intros Hin.
  - destruct Hin as [[= <- <-]|[]].
    exists (fmt.Errorf "oauth2: Context missing Token").
    repeat (split; [reflexivity|]). left. repeat split. exact Hno.
  - destruct Hin as [[=]|[]].
  - destruct Hin as [[=]|[[= <- <-]|[]]].
    exists facebook.ErrUnableToGetFacebookUser.
    repeat (split; [reflexivity|]). right. repeat split. now exists t.
  - destruct success as [fn|].
    + destruct Hin as [[=]|[[=]|[]]].
    + destruct Hin as [[=]|[]].
Qed.

(** X7: facebookHandler makes at most one request to the API in a run, and
    makes one exactly when the context carries a token; the request carries
    the access token of the context and comes before any call to a
    handler. *)
Theorem facebookHandler_api_calls ctx req w :
  let out :=
    run (facebook.facebookHandler Me config (option_map goji.leaf success)
           (option_map goji.leaf failure)) ctx req w in
  (apiCalls (log out) <= 1)%nat
  /\ (apiCalls (log out) = 1%nat
      <-> exists t, context.Value ctx context.tokenKey
                    = Some (context.AnyToken t))
  /\ (forall endpoint token,
         In (APICall endpoint token) (log out) ->
         exists t rest,
           context.Value ctx context.tokenKey = Some (context.AnyToken t)
           /\ token = oauth2.AccessToken t
           /\ log out = APICall endpoint token :: rest
           /\ apiCalls rest = 0%nat).
Proof.
  cbv zeta. facebook_exit ctx req w.
  - split; [cbn; lia|]. split.
    + split; [discriminate|]. intros [t Ht]. now elim (Hno t).
    + intros endpoint token [[=]|[]].
  - split; [cbn; lia|]. split.
    + split; [now exists t | reflexivity].
    + intros endpoint token [[= <- <-]|[]]. now exists t, [].
  - split; [cbn; lia|]. split.
    + split; [now exists t | reflexivity].
    + intros endpoint token [[= <- <-]|[[=]|[]]].
      exists t. eexists. repeat split. exact Ht.
  - destruct success as [fn|]; (split; [cbn; lia|]); split;
      try (split; [now exists t | reflexivity]).
    + intros endpoint token [[= <- <-]|[[=]|[]]].
      exists t. eexists. repeat split. exact Ht.
    + intros endpoint token [[= <- <-]|[]]. now exists t, [].
Qed.

(** With handlers that are nil or only write to the response, a run of
    facebookHandler returns or panics on a nil pointer, and
    it panics in two cases only, both with a token in the context and after
    the request to the API: the client returned a nil response with a nil
    error, or the reply was accepted and the success handler is nil (only
    the failure handler has a default).  A run that panics has called no
    handler and has written nothing. *)
Lemma facebookHandler_writer_handlers_panic_iff ctx req w :
  let out :=
    run (facebook.facebookHandler Me config (option_map goji.leaf success)
           (option_map goji.leaf failure)) ctx req w in
  (result out = Returns tt \/ result out = Panics nilDereference)
  /\ (result out = Panics nilDereference
      <-> exists t,
            context.Value ctx context.tokenKey = Some (context.AnyToken t)
            /\ let reply := Me (oauth2Login.Client config ctx (Some t)) in
               ((snd reply = None /\ snd (fst reply) = None)
                \/ (success = None
                    /\ facebook.validateResponse (fst (fst reply))
                         (snd (fst reply)) (snd reply) = Returns None)))
  /\ (result out = Panics nilDereference ->
      finalWriter out = w
      /\ (forall role, invocations role (log out) = 0%nat)
      /\ apiCalls (log out) = 1%nat).
Proof.
  cbv zeta. facebook_exit ctx req w.
  - split; [now left|]. split; [|discriminate].
    split; [discriminate|]. intros (t & Ht & _). now elim (Hno t).
  - destruct (facebook_validateResponse_panics_inv _ _ _ Hv)
      as (-> & -> & ->).
    split; [now right|]. split.
    + split; [|reflexivity]. intros _. exists t. split; [exact Ht|].
      rewrite HApi. now left.
    + intros _. repeat split.
  - split; [now left|]. split; [|discriminate].
    split; [discriminate|]. intros (t' & Ht' & Hcause). exfalso.
    rewrite Ht in Ht'. injection Ht' as <-. rewrite HApi in Hcause.
    cbn [fst snd] in Hcause.
    destruct Hcause as [[-> ->] | [_ Hacc]]; [discriminate Hv|].
    rewrite Hv in Hacc. discriminate Hacc.
  - destruct success as [fn|].
    + split; [now left|]. split; [|discriminate].
      split; [discriminate|]. intros (t' & Ht' & Hcause). exfalso.
      rewrite Ht in Ht'. injection Ht' as <-. rewrite HApi in Hcause.
      cbn [fst snd] in Hcause.
      destruct Hcause as [[_ [=]] | [[=] _]].
    + split; [now right|]. split.
      * split; [|reflexivity]. intros _. exists t. split; [exact Ht|].
        rewrite HApi. right. split; [reflexivity|].
        apply facebook_validateResponse_nil_inv. split; [reflexivity|].
        now exists r, u.
      * intros _. repeat split.
Qed.

End FacebookRuns.


Section FacebookCallback.
Variable oauth2CallbackHandler :
  oauth2.Config -> option (goji.Handler facebook.User) ->
  option (goji.Handler facebook.User) -> goji.Handler facebook.User.
Variable Me : http.Client (option oauth2.Token) -> facebook.Reply.
Variable config : oauth2.Config.
Variable failure :
  option (Context facebook.User -> http.Request ->
          http.ResponseWriter -> http.ResponseWriter).

(** X11: facebook's CallbackHandler puts the user fetch between the OAuth2
    callback stage and the caller's success handler.  When that stage hands
    over, by a call to the success handler it was given on the context with
    the token it obtained, one request is made to the API with that token;
    on an accepted reply the caller's success handler is called on a context
    that holds the token and the user, on a rejected reply the failure
    handler is called with ErrUnableToGetFacebookUser, and a panic of the
    validator leaves both uncalled. *)
Theorem facebook_CallbackHandler_after_handover fn
    (ctx : Context facebook.User) req w t :
  (forall success' failure' s,
      oauth2CallbackHandler config success' failure' ctx req s
      = goji.ServeHTTP "CallbackHandler" Success success'
          (oauth2Login.WithToken ctx t) req s) ->
  let ctx1 := oauth2Login.WithToken ctx t in
  let reply := Me (oauth2Login.Client config ctx1 (Some t)) in
  let verdict :=
    facebook.validateResponse (fst (fst reply)) (snd (fst reply)) (snd reply) in
  let out :=
    run (facebook.CallbackHandler oauth2CallbackHandler Me config
           (Some (goji.leaf fn)) (option_map goji.leaf failure)) ctx req w in
  (verdict = Returns None ->
   let ctx2 := facebook.WithUser ctx1 (fst (fst reply)) in
   out = (Returns tt,
          {| writer := fn ctx2 req w;
             calls := [Serve "CallbackHandler" Success ctx1;
                       APICall "facebook: me" (oauth2.AccessToken t);
                       Serve "facebookHandler" Success ctx2] |})
   /\ oauth2Login.TokenFromContext ctx2 = (Some t, None)
   /\ context.Value ctx2 context.userKey
      = Some (context.AnyUser (fst (fst reply))))
  /\ (forall e, verdict = Returns (Some e) ->
      let ctx2 := gologin.WithError ctx1 e in
      e = facebook.ErrUnableToGetFacebookUser
      /\ out = (Returns tt,
                {| writer := gologin.failureWrites failure ctx2 req w;
                   calls := [Serve "CallbackHandler" Success ctx1;
                             APICall "facebook: me" (oauth2.AccessToken t);
                             Serve "facebookHandler" Failure ctx2] |}))
  /\ (forall why, verdict = Panics why ->
      out = (Panics why,
             {| writer := w;
                calls := [Serve "CallbackHandler" Success ctx1;
                          APICall "facebook: me" (oauth2.AccessToken t)] |})).
Proof.
  intros Hover ctx1 reply verdict out.
  assert (Hout : out
                 = facebook.facebookHandler Me config (Some (goji.leaf fn))
                     (option_map goji.leaf failure) ctx1 req
                     {| writer := w;
                        calls := [Serve "CallbackHandler" Success ctx1] |}).
  { subst out. unfold run, facebook.CallbackHandler. rewrite Hover.
    reflexivity. }
  rewrite Hout, facebookHandler_paths.
  change (context.Value ctx1 context.tokenKey)
    with (Some (@context.AnyToken facebook.User t)).
  cbv zeta. subst verdict reply.
  split; [|split].
  - intros Hv. rewrite Hv. repeat split.
  - intros e Hv. rewrite Hv.
    destruct (facebook_validateResponse_range _ _ _ Hv) as [[=] | [= ->]].
    rewrite ServeHTTP_failure_in_use. split; reflexivity.
  - intros why Hv. rewrite Hv. reflexivity.
Qed.

End FacebookCallback.

(** ** Package bitbucket: validateResponse and bitbucketHandler *)

Lemma bitbucket_validateResponse_nil_inv (user : option bitbucket.User)
    (resp : option http.Response) (err : option error) :
  bitbucket.validateResponse user resp err = Returns None
  <-> err = None
      /\ exists r u, resp = Some r /\ http.StatusCode r = http.StatusOK
                     /\ user = Some u /\ bitbucket.Username u <> "".
Proof.
  unfold bitbucket.validateResponse. split.
  - destruct err as [e|]; [discriminate|].
    destruct resp as [r|]; [|discriminate].
    destruct (Z.eqb_spec (http.StatusCode r) http.StatusOK) as [Hcode|Hcode];
      [|discriminate].
    destruct user as [u|]; [|discriminate].
    destruct (String.eqb_spec (bitbucket.Username u) "") as [Hid|Hid]; [discriminate|].
    intros _. split; [reflexivity|]. now exists r, u.
  - intros (-> & r & u & -> & Hcode & -> & Hid).
    rewrite Hcode. cbn.
    destruct (String.eqb_spec (bitbucket.Username u) ""); [contradiction | reflexivity].
Qed.

Lemma bitbucket_validateResponse_panics_inv (user : option bitbucket.User)
    (resp : option http.Response) (err : option error) (why : string) :
  bitbucket.validateResponse user resp err = Panics why ->
  err = None /\ resp = None /\ why = nilDereference.
Proof.
  unfold bitbucket.validateResponse.
  destruct err as [e|]; [discriminate|].
  destruct resp as [r|]; [|now intros [= <-]].
  destruct (negb _); [discriminate|].
  destruct user as [u|]; [|discriminate].
  destruct (String.eqb _ _); discriminate.
Qed.

(** X2: bitbucket's validateResponse returns nil only on a valid triple: it
    returns nil exactly when the error is nil, the response is there with
    status 200, and the user is there with a non-empty Username. *)
Theorem bitbucket_validateResponse_returns_nil_iff_valid
    (user : option bitbucket.User) (resp : option http.Response)
    (err : option error) :
  bitbucket.validateResponse user resp err = Returns None
  <-> err = None
      /\ exists r u, resp = Some r /\ http.StatusCode r = http.StatusOK
                     /\ user = Some u /\ bitbucket.Username u <> "".
Proof. apply bitbucket_validateResponse_nil_inv. Qed.

Section BitbucketPaths.
Variable CurrentUser : http.Client (option oauth2.Token) -> bitbucket.Reply.
Variable config : oauth2.Config.
Implicit Types (ctx : Context bitbucket.User) (req : http.Request)
  (s : World bitbucket.User) (w : http.ResponseWriter).

Lemma bitbucketHandler_paths
    (success failure : option (goji.Handler bitbucket.User)) ctx req s :
  bitbucket.bitbucketHandler CurrentUser config success failure ctx req s
  = match context.Value ctx context.tokenKey with
    | Some (context.AnyToken t) =>
        let s1 :=
          {| writer := writer s;
             calls := calls s ++ [APICall "bitbucket: user" (oauth2.AccessToken t)] |} in
        let reply := CurrentUser (oauth2Login.Client config ctx (Some t)) in
        match bitbucket.validateResponse (fst (fst reply)) (snd (fst reply))
                (snd reply) with
        | Panics why => (Panics why, s1)
        | Returns (Some e) =>
            goji.ServeHTTP "bitbucketHandler" Failure
              match failure with
              | Some _ => failure
              | None => Some gologin.DefaultFailureHandler
              end (gologin.WithError ctx e) req s1
        | Returns None =>
            goji.ServeHTTP "bitbucketHandler" Success success
              (bitbucket.WithUser ctx (fst (fst reply))) req s1
        end
    | _ =>
        goji.ServeHTTP "bitbucketHandler" Failure
          match failure with
          | Some _ => failure
          | None => Some gologin.DefaultFailureHandler
          end
          (gologin.WithError ctx (fmt.Errorf "oauth2: Context missing Token"))
          req s
    end.
Proof.
  unfold bitbucket.bitbucketHandler, goji.HandlerFunc,
    oauth2Login.TokenFromContext.
  destruct (context.Value ctx context.tokenKey) as [[e|t|x|u]|];
    try reflexivity.
  cbn.
  destruct (CurrentUser (oauth2Login.Client config ctx (Some t))) as [[user resp] err].
  cbn [fst snd].
  destruct (bitbucket.validateResponse user resp err) as [[e|]|why];
    reflexivity.
Qed.

Lemma bitbucketHandler_exits success failure ctx req s :
  bitbucketExit CurrentUser config success failure ctx req s
    (bitbucket.bitbucketHandler CurrentUser config (option_map goji.leaf success)
       (option_map goji.leaf failure) ctx req s).
Proof.
  rewrite bitbucketHandler_paths.
  destruct (token_or_not ctx) as [[t Ht] | Hno].
  - rewrite Ht. cbv zeta.
    destruct (CurrentUser (oauth2Login.Client config ctx (Some t)))
      as [[user resp] err] eqn:HApi.
    cbn [fst snd].
    destruct (bitbucket.validateResponse user resp err) as [[e|]|why] eqn:Hv.
    + destruct (bitbucket_validateResponse_range _ _ _ Hv) as [[=] | [= ->]].
      rewrite ServeHTTP_failure_in_use.
      apply (@bitbucketRejected CurrentUser config success failure ctx req s t user
               resp err Ht HApi Hv).
    + destruct (proj1 (bitbucket_validateResponse_nil_inv _ _ _) Hv)
        as (-> & r & u & -> & Hcode & -> & Hid).
      destruct success as [fn|].
      * apply (@bitbucketAccepted CurrentUser config (Some fn) failure ctx req s t u r
                 Ht HApi Hcode Hid).
      * apply (@bitbucketAccepted CurrentUser config None failure ctx req s t u r
                 Ht HApi Hcode Hid).
    + apply (@bitbucketPanic CurrentUser config success failure ctx req s t user resp
               err why Ht HApi Hv).
  - destruct (context.Value ctx context.tokenKey) as [[e|t|x|u]|] eqn:E;
      rewrite <- E in Hno;
      try (rewrite ServeHTTP_failure_in_use;
           apply (@bitbucketNoToken CurrentUser config success failure ctx req s Hno)).
    now elim (Hno t).
Qed.

End BitbucketPaths.

Section BitbucketRuns.
Variable CurrentUser : http.Client (option oauth2.Token) -> bitbucket.Reply.
Variable config : oauth2.Config.
Variables success failure :
  option (Context bitbucket.User -> http.Request ->
          http.ResponseWriter -> http.ResponseWriter).
Implicit Types (ctx : Context bitbucket.User) (req : http.Request)
  (w : http.ResponseWriter).

Lemma bitbucketHandler_run_exits ctx req w :
  bitbucketExit CurrentUser config success failure ctx req {| writer := w; calls := [] |}
    (run (bitbucket.bitbucketHandler CurrentUser config (option_map goji.leaf success)
            (option_map goji.leaf failure)) ctx req w).
Proof. apply bitbucketHandler_exits. Qed.

Ltac bitbucket_exit ctx req w :=
  let Hexit := fresh "Hexit" in
  let o := fresh "o" in
  let Ho := fresh "Ho" in
  pose proof (bitbucketHandler_run_exits ctx req w) as Hexit;
  remember (run (bitbucket.bitbucketHandler CurrentUser config
                   (option_map goji.leaf success)
                   (option_map goji.leaf failure)) ctx req w) as o eqn:Ho;
  clear Ho;
  destruct Hexit as [Hno ctxm | t user resp err why Ht HApi Hv
                     | t user resp err Ht HApi Hv ctxe
                     | t u r Ht HApi Hcode Hid ctxu];
  cbn [app writer calls] in *.

(** X4: bitbucketHandler calls its success handler only on a validated
    user.  Whenever a call to a success handler is in the log of a run, the
    context carried a token, one request was made to the API with it, before
    the call, the reply had no error, status 200 and a user with a non-empty
    Username, and the success handler got the context extended with that user, in
    which the token and the last error read as before. *)
Theorem bitbucketHandler_success_context ctx req w site ctx' :
  let out :=
    run (bitbucket.bitbucketHandler CurrentUser config (option_map goji.leaf success)
           (option_map goji.leaf failure)) ctx req w in
  In (Serve site Success ctx') (log out) ->
  exists t u r fn,
    success = Some fn
    /\ context.Value ctx context.tokenKey = Some (context.AnyToken t)
    /\ CurrentUser (oauth2Login.Client config ctx (Some t)) = (Some u, Some r, None)
    /\ http.StatusCode r = http.StatusOK
    /\ bitbucket.Username u <> ""
    /\ ctx' = bitbucket.WithUser ctx (Some u)
    /\ context.Value ctx' context.userKey = Some (context.AnyUser (Some u))
    /\ oauth2Login.TokenFromContext ctx' = (Some t, None)
    /\ gologin.ErrorFromContext ctx' = gologin.ErrorFromContext ctx
    /\ out = (Returns tt,
              {| writer := fn ctx' req w;
                 calls := [APICall "bitbucket: user" (oauth2.AccessToken t);
                           Serve "bitbucketHandler" Success ctx'] |}).
Proof.
  cbv zeta. bitbucket_exit ctx req w; intros Hin.
  - destruct Hin as [[=]|[]].
  - destruct Hin as [[=]|[]].
  - destruct Hin as [[=]|[[=]|[]]].
  - destruct success as [fn|].
    + destruct Hin as [[=]|[[= <- <-]|[]]].
      exists t, u, r, fn.
      repeat (split; [first [reflexivity | assumption]|]).
      split.
      * unfold oauth2Login.TokenFromContext, ctxu, bitbucket.WithUser.
        cbn. now rewrite Ht.
      * split; reflexivity.
    + destruct Hin as [[=]|[]].
Qed.

(** X6: the failure handler of bitbucketHandler always finds an error in
    its context.  Whenever a call to a failure handler is in the log of a
    run, its context is the incoming one extended with one error, which is
    the missing-token error (no token in the context, no request to the API)
    or ErrUnableToGetBitbucketUser (a token, one request); the error of the
    API client itself is not passed on, no user is added, the success
    handler is not called, and the response is written by the failure
    handler alone. *)
Theorem bitbucketHandler_failure_context ctx req w site ctx' :
  let out :=
    run (bitbucket.bitbucketHandler CurrentUser config (option_map goji.leaf success)
           (option_map goji.leaf failure)) ctx req w in
  In (Serve site Failure ctx') (log out) ->
  exists e,
    ctx' = gologin.WithError ctx e
    /\ gologin.ErrorFromContext ctx' = Some e
    /\ context.Value ctx' context.userKey = context.Value ctx context.userKey
    /\ context.Value ctx' context.tokenKey = context.Value ctx context.tokenKey
    /\ result out = Returns tt
    /\ finalWriter out = gologin.failureWrites failure ctx' req w
    /\ invocations Failure (log out) = 1%nat
    /\ invocations Success (log out) = 0%nat
    /\ ((e = fmt.Errorf "oauth2: Context missing Token"
         /\ (forall t, context.Value ctx context.tokenKey
                       <> Some (context.AnyToken t))
         /\ apiCalls (log out) = 0%nat)
        \/ (e = bitbucket.ErrUnableToGetBitbucketUser
            /\ (exists t, context.Value ctx context.tokenKey
                          = Some (context.AnyToken t))
            /\ apiCalls (log out) = 1%nat)).
Proof.
  cbv zeta. bitbucket_exit ctx req w; intros Hin.
  - destruct Hin as [[= <- <-]|[]].
    exists (fmt.Errorf "oauth2: Context missing Token").
    repeat (split; [reflexivity|]). left. repeat split. exact Hno.
  - destruct Hin as [[=]|[]].
  - destruct Hin as [[=]|[[= <- <-]|[]]].
    exists bitbucket.ErrUnableToGetBitbucketUser.
    repeat (split; [reflexivity|]). right. repeat split. now exists t.
  - destruct success as [fn|].
    + destruct Hin as [[=]|[[=]|[]]].
    + destruct Hin as [[=]|[]].
Qed.

(** X8: bitbucketHandler makes at most one request to the API in a run, and
    makes one exactly when the context carries a token; the request carries
    the access token of the context and comes before any call to a
    handler. *)
Theorem bitbucketHandler_api_calls ctx req w :
  let out :=
    run (bitbucket.bitbucketHandler CurrentUser config (option_map goji.leaf success)
           (option_map goji.leaf failure)) ctx req w in
  (apiCalls (log out) <= 1)%nat
  /\ (apiCalls (log out) = 1%nat
      <-> exists t, context.Value ctx context.tokenKey
                    = Some (context.AnyToken t))
  /\ (forall endpoint token,
         In (APICall endpoint token) (log out) ->
         exists t rest,
           context.Value ctx context.tokenKey = Some (context.AnyToken t)
           /\ token = oauth2.AccessToken t
           /\ log out = APICall endpoint token :: rest
           /\ apiCalls rest = 0%nat).
Proof.
  cbv zeta. bitbucket_exit ctx req w.
  - split; [cbn; lia|]. split.
    + split; [discriminate|]. intros [t Ht]. now elim (Hno t).
    + intros endpoint token [[=]|[]].
  - split; [cbn; lia|]. split.
    + split; [now exists t | reflexivity].
    + intros endpoint token [[= <- <-]|[]]. now exists t, [].
  - split; [cbn; lia|]. split.
    + split; [now exists t | reflexivity].
    + intros endpoint token [[= <- <-]|[[=]|[]]].
      exists t. eexists. repeat split. exact Ht.
  - destruct success as [fn|]; (split; [cbn; lia|]); split;
      try (split; [now exists t | reflexivity]).
    + intros endpoint token [[= <- <-]|[[=]|[]]].
      exists t. eexists. repeat split. exact Ht.
    + intros endpoint token [[= <- <-]|[]]. now exists t, [].
Qed.

(** With handlers that are nil or only write to the response, a run of
    bitbucketHandler returns or panics on a nil pointer, and
    it panics in two cases only, both with a token in the context and after
    the request to the API: the client returned a nil response with a nil
    error, or the reply was accepted and the success handler is nil (only
    the failure handler has a default).  A run that panics has called no
    handler and has written nothing. *)
Lemma bitbucketHandler_writer_handlers_panic_iff ctx req w :
  let out :=
    run (bitbucket.bitbucketHandler CurrentUser config (option_map goji.leaf success)
           (option_map goji.leaf failure)) ctx req w in
  (result out = Returns tt \/ result out = Panics nilDereference)
  /\ (result out = Panics nilDereference
      <-> exists t,
            context.Value ctx context.tokenKey = Some (context.AnyToken t)
            /\ let reply := CurrentUser (oauth2Login.Client config ctx (Some t)) in
               ((snd reply = None /\ snd (fst reply) = None)
                \/ (success = None
                    /\ bitbucket.validateResponse (fst (fst reply))
                         (snd (fst reply)) (snd reply) = Returns None)))
  /\ (result out = Panics nilDereference ->
      finalWriter out = w
      /\ (forall role, invocations role (log out) = 0%nat)
      /\ apiCalls (log out) = 1%nat).
Proof.
  cbv zeta. bitbucket_exit ctx req w.
  - split; [now left|]. split; [|discriminate].
    split; [discriminate|]. intros (t & Ht & _). now elim (Hno t).
  - destruct (bitbucket_validateResponse_panics_inv _ _ _ Hv)
      as (-> & -> & ->).
    split; [now right|]. split.
    + split; [|reflexivity]. intros _. exists t. split; [exact Ht|].
      rewrite HApi. now left.
    + intros _. repeat split.
  - split; [now left|]. split; [|discriminate].
    split; [discriminate|]. intros (t' & Ht' & Hcause). exfalso.
    rewrite Ht in Ht'. injection Ht' as <-. rewrite HApi in Hcause.
    cbn [fst snd] in Hcause.
    destruct Hcause as [[-> ->] | [_ Hacc]]; [discriminate Hv|].
    rewrite Hv in Hacc. discriminate Hacc.
  - destruct success as [fn|].
    + split; [now left|]. split; [|discriminate].
      split; [discriminate|]. intros (t' & Ht' & Hcause). exfalso.
      rewrite Ht in Ht'. injection Ht' as <-. rewrite HApi in Hcause.
      cbn [fst snd] in Hcause.
      destruct Hcause as [[_ [=]] | [[=] _]].
    + split; [now right|]. split.
      * split; [|reflexivity]. intros _. exists t. split; [exact Ht|].
        rewrite HApi. right. split; [reflexivity|].
        apply bitbucket_validateResponse_nil_inv. split; [reflexivity|].
        now exists r, u.
      * intros _. repeat split.
Qed.

End BitbucketRuns.


Section BitbucketCallback.
Variable oauth2CallbackHandler :
  oauth2.Config -> option (goji.Handler bitbucket.User) ->
  option (goji.Handler bitbucket.User) -> goji.Handler bitbucket.User.
Variable CurrentUser : http.Client (option oauth2.Token) -> bitbucket.Reply.
Variable config : oauth2.Config.
Variable failure :
  option (Context bitbucket.User -> http.Request ->
          http.ResponseWriter -> http.ResponseWriter).

(** X12: bitbucket's CallbackHandler puts the user fetch between the OAuth2
    callback stage and the caller's success handler.  When that stage hands
    over, by a call to the success handler it was given on the context with
    the token it obtained, one request is made to the API with that token;
    on an accepted reply the caller's success handler is called on a context
    that holds the token and the user, on a rejected reply the failure
    handler is called with ErrUnableToGetBitbucketUser, and a panic of the
    validator leaves both uncalled. *)
Theorem bitbucket_CallbackHandler_after_handover fn
    (ctx : Context bitbucket.User) req w t :
  (forall success' failure' s,
      oauth2CallbackHandler config success' failure' ctx req s
      = goji.ServeHTTP "CallbackHandler" Success success'
          (oauth2Login.WithToken ctx t) req s) ->
  let ctx1 := oauth2Login.WithToken ctx t in
  let reply := CurrentUser (oauth2Login.Client config ctx1 (Some t)) in
  let verdict :=
    bitbucket.validateResponse (fst (fst reply)) (snd (fst reply)) (snd reply) in
  let out :=
    run (bitbucket.CallbackHandler oauth2CallbackHandler CurrentUser config
           (Some (goji.leaf fn)) (option_map goji.leaf failure)) ctx req w in
  (verdict = Returns None ->
   let ctx2 := bitbucket.WithUser ctx1 (fst (fst reply)) in
   out = (Returns tt,
          {| writer := fn ctx2 req w;
             calls := [Serve "CallbackHandler" Success ctx1;
                       APICall "bitbucket: user" (oauth2.AccessToken t);
                       Serve "bitbucketHandler" Success ctx2] |})
   /\ oauth2Login.TokenFromContext ctx2 = (Some t, None)
   /\ context.Value ctx2 context.userKey
      = Some (context.AnyUser (fst (fst reply))))
  /\ (forall e, verdict = Returns (Some e) ->
      let ctx2 := gologin.WithError ctx1 e in
      e = bitbucket.ErrUnableToGetBitbucketUser
      /\ out = (Returns tt,
                {| writer := gologin.failureWrites failure ctx2 req w;
                   calls := [Serve "CallbackHandler" Success ctx1;
                             APICall "bitbucket: user" (oauth2.AccessToken t);
                             Serve "bitbucketHandler" Failure ctx2] |}))
  /\ (forall why, verdict = Panics why ->
      out = (Panics why,
             {| writer := w;
                calls := [Serve "CallbackHandler" Success ctx1;
                          APICall "bitbucket: user" (oauth2.AccessToken t)] |})).
Proof.
  intros Hover ctx1 reply verdict out.
  assert (Hout : out
                 = bitbucket.bitbucketHandler CurrentUser config (Some (goji.leaf fn))
                     (option_map goji.leaf failure) ctx1 req
                     {| writer := w;
                        calls := [Serve "CallbackHandler" Success ctx1] |}).
  { subst out. unfold run, bitbucket.CallbackHandler. rewrite Hover.
    reflexivity. }
  rewrite Hout, bitbucketHandler_paths.
  change (context.Value ctx1 context.tokenKey)
    with (Some (@context.AnyToken bitbucket.User t)).
  cbv zeta. subst verdict reply.
  split; [|split].
  - intros Hv. rewrite Hv. repeat split.
  - intros e Hv. rewrite Hv.
    destruct (bitbucket_validateResponse_range _ _ _ Hv) as [[=] | [= ->]].
    rewrite ServeHTTP_failure_in_use. split; reflexivity.
  - intros why Hv. rewrite Hv. reflexivity.
Qed.

End BitbucketCallback.

(** ** Package testutils *)

Section Observed.
Variable Me : http.Client (option oauth2.Token) -> facebook.Reply.
Variable config : oauth2.Config.

(** X13: AssertSuccessNotCalled and AssertFailureNotCalled report to the
    test exactly the calls that facebookHandler makes: after a run with the
    two as its handlers, the failures reported are the one message of the
    handler that was called, or none when no handler was called, and the two
    handlers write nothing to the response. *)
Theorem facebookHandler_observed_by_testutils
    (ctx : Context facebook.User) req w :
  let out :=
    run (facebook.facebookHandler Me config
           (Some testutils.AssertSuccessNotCalled)
           (Some testutils.AssertFailureNotCalled)) ctx req w in
  finalWriter out = w
  /\ (invocations Success (log out) = 1%nat
      <-> testFailures (log out) = ["unexpected call to success ContextHandler"])
  /\ (invocations Failure (log out) = 1%nat
      <-> testFailures (log out) = ["unexpected call to failure ContextHandler"])
  /\ ((invocations Success (log out) + invocations Failure (log out) = 0)%nat
      <-> testFailures (log out) = []).
Proof.
  cbv zeta. unfold run. rewrite facebookHandler_paths.
  destruct (context.Value ctx context.tokenKey) as [[e|t|x|u]|];
    try (cbn; repeat split; first [reflexivity | discriminate]).
  cbv zeta.
  destruct (facebook.validateResponse _ _ _) as [[e|]|why];
    cbn; repeat split; first [reflexivity | discriminate].
Qed.

End Observed.

Lemma app_one_neq (A : Type) (l : list A) (x : A) : (l ++ [x])%list <> l.
Proof.
  intros H. apply (f_equal (@length A)) in H.
  rewrite length_app in H. cbn in H. lia.
Qed.

(** X14: AssertBodyString reports no failure exactly when the body was read
    without error and equals the expected string; otherwise it reports one
    failure, "error reading Body" on a read error and the two quoted strings
    on a mismatch.  In every case it closes the reader, once, and leaves the
    response alone. *)
Theorem AssertBodyString_reports_iff_body_differs
    (Quote : string -> string) (U : Type) (rc : io.ReadCloser)
    (expected : string) (s : World U) :
  let out := testutils.AssertBodyString Quote rc expected s in
  (exists rc', fst out = Returns rc'
               /\ io.closes rc' = S (io.closes rc)
               /\ io.content rc' = "")
  /\ writer (snd out) = writer s
  /\ (calls (snd out) = calls s
      <-> io.readErr rc = None /\ io.content rc = expected)
  /\ (io.readErr rc <> None ->
      calls (snd out) = (calls s ++ [TestFail "error reading Body"])%list)
  /\ (io.readErr rc = None -> io.content rc <> expected ->
      calls (snd out)
      = (calls s
         ++ [TestFail ("expected " ++ Quote expected ++ ", got "
                       ++ Quote (io.content rc))%string])%list).
Proof.
  cbv zeta. unfold testutils.AssertBodyString, ioutil.ReadAll.
  destruct rc as [body rerr n]. cbn [io.content io.readErr io.closes].
  destruct rerr as [e|].
  - cbn. split; [eexists; repeat split|]. split; [reflexivity|].
    split; [|split].
    + split; [intros H; now apply app_one_neq in H | intros [H _]; discriminate H].
    + reflexivity.
    + intros H; discriminate H.
  - destruct (String.eqb_spec body expected) as [->|Hne]; cbn.
    + split; [eexists; repeat split|]. split; [reflexivity|].
      split; [|split].
      * split; [now split | reflexivity].
      * intros H. now elim H.
      * intros _ H. now elim H.
    + split; [eexists; repeat split|]. split; [reflexivity|].
      split; [|split].
      * split; [intros H; now apply app_one_neq in H | intros [_ H]; contradiction].
      * intros H. now elim H.
      * reflexivity.
Qed.

(** ** The two providers side by side *)

Lemma alike_verdicts (uf : option facebook.User) (ub : option bitbucket.User)
    rf rb ef eb :
  alike (uf, rf, ef) (ub, rb, eb) ->
  match facebook.validateResponse uf rf ef,
        bitbucket.validateResponse ub rb eb with
  | Returns None, Returns None => True
  | Returns (Some _), Returns (Some _) => True
  | Panics a, Panics b => a = b
  | _, _ => False
  end.
Proof.
  unfold alike. cbn [fst snd]. intros (<- & Herr & Huser).
  unfold facebook.validateResponse, bitbucket.validateResponse.
  destruct ef as [ef|], eb as [eb|]; try exact I.
  - destruct Herr as [_ H]. discriminate (H eq_refl).
  - destruct Herr as [H _]. discriminate (H eq_refl).
  - destruct rf as [r|]; [|reflexivity].
    destruct (negb _); [exact I|].
    destruct uf as [uf|], ub as [ub|]; try exact I; try contradiction.
    destruct (String.eqb_spec (facebook.ID uf) "") as [Hf|Hf],
             (String.eqb_spec (bitbucket.Username ub) "") as [Hb|Hb];
      try exact I.
    + now apply Hb, Huser.
    + now apply Hf, Huser.
Qed.


(** X15: facebookHandler and bitbucketHandler are the same stage.  On
    contexts that carry the same token or none, and a provider that answers
    both alike, the two runs end the same way (both return or both panic),
    call their success and failure handlers the same number of times, and
    make the same number of requests. *)
Theorem facebook_and_bitbucket_handlers_agree
    Me CurrentUser config fnF fnB failureF failureB
    (ctxF : Context facebook.User) (ctxB : Context bitbucket.User)
    req wF wB :
  (forall t, context.Value ctxF context.tokenKey = Some (context.AnyToken t)
             <-> context.Value ctxB context.tokenKey = Some (context.AnyToken t)) ->
  (forall t, alike (Me (oauth2Login.Client config ctxF (Some t)))
                   (CurrentUser (oauth2Login.Client config ctxB (Some t)))) ->
  let outF :=
    run (facebook.facebookHandler Me config (Some (goji.leaf fnF))
           (option_map goji.leaf failureF)) ctxF req wF in
  let outB :=
    run (bitbucket.bitbucketHandler CurrentUser config (Some (goji.leaf fnB))
           (option_map goji.leaf failureB)) ctxB req wB in
  result outF = result outB
  /\ (forall role, invocations role (log outF) = invocations role (log outB))
  /\ apiCalls (log outF) = apiCalls (log outB).
Proof.
  intros Htok Halike. cbv zeta.
  pose proof (facebookHandler_run_exits Me config (Some fnF) failureF
                ctxF req wF) as HF.
  pose proof (bitbucketHandler_run_exits CurrentUser config (Some fnB) failureB
                ctxB req wB) as HB.
  cbn [option_map] in HF, HB.
  remember (run (facebook.facebookHandler _ _ _ _) ctxF req wF) as oF eqn:EF.
  remember (run (bitbucket.bitbucketHandler _ _ _ _) ctxB req wB) as oB eqn:EB.
  clear EF EB.
  destruct HF as [HnoF ctxmF | tF uF rF eF whyF HtF HApiF HvF
                  | tF uF rF eF HtF HApiF HvF ctxeF
                  | tF uF rF HtF HApiF HcodeF HidF ctxuF];
    destruct HB as [HnoB ctxmB | tB uB rB eB whyB HtB HApiB HvB
                    | tB uB rB eB HtB HApiB HvB ctxeB
                    | tB uB rB HtB HApiB HcodeB HidB ctxuB];
    try (exfalso; apply (HnoF tB); now apply Htok);
    try (exfalso; apply (HnoB tF); now apply Htok);
    try (assert (tB = tF)
          by (apply Htok in HtF; rewrite HtF in HtB; now injection HtB);
         subst tB;
         pose proof (Halike tF) as Ha; rewrite HApiF, HApiB in Ha;
         apply alike_verdicts in Ha);
    try (rewrite (proj2 (facebook_validateResponse_nil_inv _ _ _)) in Ha
          by (split; [reflexivity | eexists _, _; repeat split; eassumption]));
    try (rewrite (proj2 (bitbucket_validateResponse_nil_inv _ _ _)) in Ha
          by (split; [reflexivity | eexists _, _; repeat split; eassumption]));
    try rewrite HvF in Ha; try rewrite HvB in Ha;
    try contradiction;
    cbn; repeat split; try (intros []; reflexivity); try congruence.
Qed.

(** ** Instances for facebook *)

Lemma facebookHandler_success_context_witness :
  let ctx := oauth2Login.WithToken context.Background anyToken in
  let ctx' := facebook.WithUser ctx (Some validUser) in
  let out :=
    run (facebook.facebookHandler facebookServer config
           (option_map goji.leaf (Some successCalled))
           (option_map goji.leaf (Some failureCalled)))
        ctx getRequest http.NewRecorder in
  In (Serve "facebookHandler" Success ctx') (log out)
  /\ http.Body (finalWriter out) = "success handler called".
Proof.
  intros ctx ctx' out.
  assert (Hin : In (Serve "facebookHandler" Success ctx') (log out)).
  { right. left. reflexivity. }
  split; [exact Hin|].
  destruct (facebookHandler_success_context facebookServer config
              (Some successCalled) (Some failureCalled) ctx getRequest
              http.NewRecorder "facebookHandler" ctx' Hin)
    as (t & u & r & fn & Hfn & _ & _ & _ & _ & _ & _ & _ & _ & Hout).
  injection Hfn as <-. unfold out. rewrite Hout. reflexivity.
Defined.

Lemma facebookHandler_failure_context_witness :
  let ctx' :=
    gologin.WithError (@context.Background facebook.User)
      (fmt.Errorf "oauth2: Context missing Token") in
  let out :=
    run (facebook.facebookHandler facebookServer config
           (option_map goji.leaf (Some successCalled))
           (option_map goji.leaf (Some failureCalled)))
        context.Background getRequest http.NewRecorder in
  In (Serve "facebookHandler" Failure ctx') (log out)
  /\ finalWriter out
     = gologin.failureWrites (Some failureCalled) ctx' getRequest http.NewRecorder
  /\ invocations Success (log out) = 0%nat.
Proof.
  intros ctx' out.
  assert (Hin : In (Serve "facebookHandler" Failure ctx') (log out)).
  { left. reflexivity. }
  split; [exact Hin|].
  destruct (facebookHandler_failure_context facebookServer config
              (Some successCalled) (Some failureCalled) context.Background
              getRequest http.NewRecorder "facebookHandler" ctx' Hin)
    as (e & _ & _ & _ & _ & _ & Hw & _ & Hs & _).
  exact (conj Hw Hs).
Defined.

Lemma facebook_CallbackHandler_after_handover_witness :
  let ctx1 := oauth2Login.WithToken (@context.Background facebook.User) anyToken in
  let ctx2 := facebook.WithUser ctx1 (Some validUser) in
  (forall success' failure' (s : World facebook.User),
      handOver config success' failure' context.Background getRequest s
      = goji.ServeHTTP "CallbackHandler" Success success'
          (oauth2Login.WithToken context.Background anyToken) getRequest s)
  /\ run (facebook.CallbackHandler handOver facebookServer config
            (Some (goji.leaf successCalled))
            (option_map goji.leaf (Some failureCalled)))
         context.Background getRequest http.NewRecorder
     = (Returns tt,
        {| writer := successCalled ctx2 getRequest http.NewRecorder;
           calls := [Serve "CallbackHandler" Success ctx1;
                     APICall "facebook: me" (oauth2.AccessToken anyToken);
                     Serve "facebookHandler" Success ctx2] |}).
Proof.
  intros ctx1 ctx2.
  assert (Hover : forall success' failure' (s : World facebook.User),
             handOver config success' failure' context.Background getRequest s
             = goji.ServeHTTP "CallbackHandler" Success success'
                 (oauth2Login.WithToken context.Background anyToken)
                 getRequest s).
  { intros success' failure' s. reflexivity. }
  split; [exact Hover|].
  destruct (facebook_CallbackHandler_after_handover handOver facebookServer
              config (Some failureCalled) successCalled context.Background
              getRequest http.NewRecorder anyToken Hover)
    as (Hacc & _ & _).
  exact (proj1 (Hacc eq_refl)).
Defined.

(** ** Instances for bitbucket *)

Lemma bitbucketHandler_success_context_witness :
  let ctx := oauth2Login.WithToken context.Background anyToken in
  let ctx' := bitbucket.WithUser ctx (Some validBitbucketUser) in
  let out :=
    run (bitbucket.bitbucketHandler bitbucketServer config
           (option_map goji.leaf (Some successCalled))
           (option_map goji.leaf (Some failureCalled)))
        ctx getRequest http.NewRecorder in
  In (Serve "bitbucketHandler" Success ctx') (log out)
  /\ http.Body (finalWriter out) = "success handler called".
Proof.
  intros ctx ctx' out.
  assert (Hin : In (Serve "bitbucketHandler" Success ctx') (log out)).
  { right. left. reflexivity. }
  split; [exact Hin|].
  destruct (bitbucketHandler_success_context bitbucketServer config
              (Some successCalled) (Some failureCalled) ctx getRequest
              http.NewRecorder "bitbucketHandler" ctx' Hin)
    as (t & u & r & fn & Hfn & _ & _ & _ & _ & _ & _ & _ & _ & Hout).
  injection Hfn as <-. unfold out. rewrite Hout. reflexivity.
Defined.

Lemma bitbucketHandler_failure_context_witness :
  let ctx' :=
    gologin.WithError (@context.Background bitbucket.User)
      (fmt.Errorf "oauth2: Context missing Token") in
  let out :=
    run (bitbucket.bitbucketHandler bitbucketServer config
           (option_map goji.leaf (Some successCalled))
           (option_map goji.leaf (Some failureCalled)))
        context.Background getRequest http.NewRecorder in
  In (Serve "bitbucketHandler" Failure ctx') (log out)
  /\ finalWriter out
     = gologin.failureWrites (Some failureCalled) ctx' getRequest http.NewRecorder
  /\ invocations Success (log out) = 0%nat.
Proof.
  intros ctx' out.
  assert (Hin : In (Serve "bitbucketHandler" Failure ctx') (log out)).
  { left. reflexivity. }
  split; [exact Hin|].
  destruct (bitbucketHandler_failure_context bitbucketServer config
              (Some successCalled) (Some failureCalled) context.Background
              getRequest http.NewRecorder "bitbucketHandler" ctx' Hin)
    as (e & _ & _ & _ & _ & _ & Hw & _ & Hs & _).
  exact (conj Hw Hs).
Defined.

Lemma bitbucket_CallbackHandler_after_handover_witness :
  let ctx1 := oauth2Login.WithToken (@context.Background bitbucket.User) anyToken in
  let ctx2 := bitbucket.WithUser ctx1 (Some validBitbucketUser) in
  (forall success' failure' (s : World bitbucket.User),
      handOver config success' failure' context.Background getRequest s
      = goji.ServeHTTP "CallbackHandler" Success success'
          (oauth2Login.WithToken context.Background anyToken) getRequest s)
  /\ run (bitbucket.CallbackHandler handOver bitbucketServer config
            (Some (goji.leaf successCalled))
            (option_map goji.leaf (Some failureCalled)))
         context.Background getRequest http.NewRecorder
     = (Returns tt,
        {| writer := successCalled ctx2 getRequest http.NewRecorder;
           calls := [Serve "CallbackHandler" Success ctx1;
                     APICall "bitbucket: user" (oauth2.AccessToken anyToken);
                     Serve "bitbucketHandler" Success ctx2] |}).
Proof.
  intros ctx1 ctx2.
  assert (Hover : forall success' failure' (s : World bitbucket.User),
             handOver config success' failure' context.Background getRequest s
             = goji.ServeHTTP "CallbackHandler" Success success'
                 (oauth2Login.WithToken context.Background anyToken)
                 getRequest s).
  { intros success' failure' s. reflexivity. }
  split; [exact Hover|].
  destruct (bitbucket_CallbackHandler_after_handover handOver bitbucketServer
              config (Some failureCalled) successCalled context.Background
              getRequest http.NewRecorder anyToken Hover)
    as (Hacc & _ & _).
  exact (proj1 (Hacc eq_refl)).
Defined.

Lemma facebook_and_bitbucket_handlers_agree_witness :
  let ctxF := oauth2Login.WithToken (@context.Background facebook.User) anyToken in
  let ctxB := oauth2Login.WithToken (@context.Background bitbucket.User) anyToken in
  let outF :=
    run (facebook.facebookHandler facebookServer config
           (Some (goji.leaf successCalled))
           (option_map goji.leaf (Some failureCalled)))
        ctxF getRequest http.NewRecorder in
  let outB :=
    run (bitbucket.bitbucketHandler bitbucketServer config
           (Some (goji.leaf successCalled)) (option_map goji.leaf None))
        ctxB getRequest http.NewRecorder in
  (forall t, context.Value ctxF context.tokenKey = Some (context.AnyToken t)
             <-> context.Value ctxB context.tokenKey = Some (context.AnyToken t))
  /\ (forall t, alike (facebookServer (oauth2Login.Client config ctxF (Some t)))
                      (bitbucketServer (oauth2Login.Client config ctxB (Some t))))
  /\ result outF = result outB
  /\ (forall role, invocations role (log outF) = invocations role (log outB))
  /\ apiCalls (log outF) = apiCalls (log outB).
Proof.
  intros ctxF ctxB outF outB.
  assert (Htok : forall t,
             context.Value ctxF context.tokenKey = Some (context.AnyToken t)
             <-> context.Value ctxB context.tokenKey
                 = Some (context.AnyToken t)).
  { intros t. split; intros [= <-]; reflexivity. }
  assert (Halike : forall t,
             alike (facebookServer (oauth2Login.Client config ctxF (Some t)))
                   (bitbucketServer (oauth2Login.Client config ctxB (Some t)))).
  { intros t. split; [reflexivity|]. split; [split; reflexivity|].
    split; discriminate. }
  split; [exact Htok|]. split; [exact Halike|].
  exact (facebook_and_bitbucket_handlers_agree facebookServer bitbucketServer
           config successCalled successCalled (Some failureCalled) None
           ctxF ctxB getRequest http.NewRecorder http.NewRecorder Htok Halike).
Defined.

(** ** One call per run *)

Section FacebookCalls.
Variable Me : http.Client (option oauth2.Token) -> facebook.Reply.
Variable config : oauth2.Config.
Variables success failure : option (goji.Handler facebook.User).
Implicit Types (ctx : Context facebook.User) (req : http.Request)
  (w : http.ResponseWriter).

(** Whatever its handlers are, a run of facebookHandler ends before any
    call to a handler, in a panic, or is one call to one handler. *)
Lemma facebookHandler_at_most_one_call ctx req w :
  let failure' :=
    match failure with
    | Some _ => failure
    | None => Some gologin.DefaultFailureHandler
    end in
  let out := run (facebook.facebookHandler Me config success failure) ctx req w in
  exists pre,
    invocations Success pre = 0%nat
    /\ invocations Failure pre = 0%nat
    /\ ((exists why, out = (Panics why, {| writer := w; calls := pre |}))
        \/ (exists ctx',
               out = goji.ServeHTTP "facebookHandler" Success success ctx' req
                       {| writer := w; calls := pre |})
        \/ (exists ctx',
               out = goji.ServeHTTP "facebookHandler" Failure failure' ctx' req
                       {| writer := w; calls := pre |})).
Proof.
  cbv zeta. unfold run. rewrite facebookHandler_paths.
  destruct (context.Value ctx context.tokenKey) as [[e|t|x|u]|];
    try (exists []; split; [reflexivity|]; split; [reflexivity|];
         right; right; eexists; reflexivity).
  cbv zeta. cbn [app writer calls].
  exists [APICall "facebook: me" (oauth2.AccessToken t)].
  split; [reflexivity|]. split; [reflexivity|].
  destruct (facebook.validateResponse _ _ _) as [[e|]|why].
  - right. right. eexists. reflexivity.
  - right. left. eexists. reflexivity.
  - left. eexists. reflexivity.
Qed.

Lemma facebookHandler_own_panic ctx req w :
  facebookOwnPanic Me config success ctx ->
  exists t,
    context.Value ctx context.tokenKey = Some (context.AnyToken t)
    /\ run (facebook.facebookHandler Me config success failure) ctx req w
       = (Panics nilDereference,
          {| writer := w;
             calls := [APICall "facebook: me" (oauth2.AccessToken t)] |}).
Proof.
  intros (t & Ht & Hcause). exists t. split; [exact Ht|].
  unfold run. rewrite facebookHandler_paths, Ht. cbv zeta in *.
  destruct (Me (oauth2Login.Client config ctx (Some t))) as [[user resp] err].
  cbn [fst snd app writer calls] in *.
  destruct Hcause as [[-> ->] | [-> Hv]].
  - reflexivity.
  - rewrite Hv. reflexivity.
Qed.

Lemma facebookHandler_one_handover ctx req w :
  ~ facebookOwnPanic Me config success ctx ->
  let failure' :=
    match failure with
    | Some _ => failure
    | None => Some gologin.DefaultFailureHandler
    end in
  exists pre role h ctx',
    invocations Success pre = 0%nat
    /\ invocations Failure pre = 0%nat
    /\ ((role = Success /\ success = Some h)
        \/ (role = Failure /\ failure' = Some h))
    /\ run (facebook.facebookHandler Me config success failure) ctx req w
       = goji.ServeHTTP "facebookHandler" role (Some h) ctx' req
           {| writer := w; calls := pre |}.
Proof.
  intros Hnot failure'.
  assert (Hf : exists hf, failure' = Some hf).
  { subst failure'. destruct failure as [hf|]; eexists; reflexivity. }
  destruct Hf as [hf Hf].
  unfold run. rewrite facebookHandler_paths. fold failure'. rewrite Hf.
  destruct (context.Value ctx context.tokenKey) as [[e|t|x|u]|] eqn:Ht;
    try (exists [], Failure, hf; eexists;
         split; [reflexivity|]; split; [reflexivity|];
         split; [right; split; reflexivity | reflexivity]).
  cbv zeta. cbn [app writer calls].
  destruct (Me (oauth2Login.Client config ctx (Some t)))
    as [[user resp] err] eqn:HApi.
  cbn [fst snd].
  destruct (facebook.validateResponse user resp err) as [[e|]|why] eqn:Hv.
  - exists [APICall "facebook: me" (oauth2.AccessToken t)], Failure, hf.
    eexists. split; [reflexivity|]. split; [reflexivity|].
    split; [right; split; reflexivity | reflexivity].
  - destruct success as [hs|] eqn:Hs.
    + exists [APICall "facebook: me" (oauth2.AccessToken t)], Success, hs.
      eexists. split; [reflexivity|]. split; [reflexivity|].
      split; [left; split; reflexivity | reflexivity].
    + elim Hnot. exists t. split; [exact Ht|]. cbv zeta. rewrite HApi.
      cbn [fst snd]. right. split; [reflexivity | exact Hv].
  - elim Hnot. exists t. split; [exact Ht|]. cbv zeta. rewrite HApi.
    cbn [fst snd]. left.
    destruct (facebook_validateResponse_panics_inv _ _ _ Hv) as (-> & -> & _).
    split; reflexivity.
Qed.

End FacebookCalls.

Lemma facebook_conventional_no_own_panic Me config hs
    (ctx : Context facebook.User) :
  (forall c, conventional (Me c)) ->
  ~ facebookOwnPanic Me config (Some hs) ctx.
Proof.
  intros Hconv (t & _ & Hcause). cbv zeta in Hcause.
  destruct Hcause as [[He Hr] | [Hs _]]; [|discriminate Hs].
  exact (Hconv (oauth2Login.Client config ctx (Some t)) He Hr).
Qed.

Section BitbucketCalls.
Variable CurrentUser : http.Client (option oauth2.Token) -> bitbucket.Reply.
Variable config : oauth2.Config.
Variables success failure : option (goji.Handler bitbucket.User).
Implicit Types (ctx : Context bitbucket.User) (req : http.Request)
  (w : http.ResponseWriter).

(** Whatever its handlers are, a run of bitbucketHandler ends before any
    call to a handler, in a panic, or is one call to one handler. *)
Lemma bitbucketHandler_at_most_one_call ctx req w :
  let failure' :=
    match failure with
    | Some _ => failure
    | None => Some gologin.DefaultFailureHandler
    end in
  let out := run (bitbucket.bitbucketHandler CurrentUser config success failure) ctx req w in
  exists pre,
    invocations Success pre = 0%nat
    /\ invocations Failure pre = 0%nat
    /\ ((exists why, out = (Panics why, {| writer := w; calls := pre |}))
        \/ (exists ctx',
               out = goji.ServeHTTP "bitbucketHandler" Success success ctx' req
                       {| writer := w; calls := pre |})
        \/ (exists ctx',
               out = goji.ServeHTTP "bitbucketHandler" Failure failure' ctx' req
                       {| writer := w; calls := pre |})).
Proof.
  cbv zeta. unfold run. rewrite bitbucketHandler_paths.
  destruct (context.Value ctx context.tokenKey) as [[e|t|x|u]|];
    try (exists []; split; [reflexivity|]; split; [reflexivity|];
         right; right; eexists; reflexivity).
  cbv zeta. cbn [app writer calls].
  exists [APICall "bitbucket: user" (oauth2.AccessToken t)].
  split; [reflexivity|]. split; [reflexivity|].
  destruct (bitbucket.validateResponse _ _ _) as [[e|]|why].
  - right. right. eexists. reflexivity.
  - right. left. eexists. reflexivity.
  - left. eexists. reflexivity.
Qed.

Lemma bitbucketHandler_own_panic ctx req w :
  bitbucketOwnPanic CurrentUser config success ctx ->
  exists t,
    context.Value ctx context.tokenKey = Some (context.AnyToken t)
    /\ run (bitbucket.bitbucketHandler CurrentUser config success failure) ctx req w
       = (Panics nilDereference,
          {| writer := w;
             calls := [APICall "bitbucket: user" (oauth2.AccessToken t)] |}).
Proof.
  intros (t & Ht & Hcause). exists t. split; [exact Ht|].
  unfold run. rewrite bitbucketHandler_paths, Ht. cbv zeta in *.
  destruct (CurrentUser (oauth2Login.Client config ctx (Some t))) as [[user resp] err].
  cbn [fst snd app writer calls] in *.
  destruct Hcause as [[-> ->] | [-> Hv]].
  - reflexivity.
  - rewrite Hv. reflexivity.
Qed.

Lemma bitbucketHandler_one_handover ctx req w :
  ~ bitbucketOwnPanic CurrentUser config success ctx ->
  let failure' :=
    match failure with
    | Some _ => failure
    | None => Some gologin.DefaultFailureHandler
    end in
  exists pre role h ctx',
    invocations Success pre = 0%nat
    /\ invocations Failure pre = 0%nat
    /\ ((role = Success /\ success = Some h)
        \/ (role = Failure /\ failure' = Some h))
    /\ run (bitbucket.bitbucketHandler CurrentUser config success failure) ctx req w
       = goji.ServeHTTP "bitbucketHandler" role (Some h) ctx' req
           {| writer := w; calls := pre |}.
Proof.
  intros Hnot failure'.
  assert (Hf : exists hf, failure' = Some hf).
  { subst failure'. destruct failure as [hf|]; eexists; reflexivity. }
  destruct Hf as [hf Hf].
  unfold run. rewrite bitbucketHandler_paths. fold failure'. rewrite Hf.
  destruct (context.Value ctx context.tokenKey) as [[e|t|x|u]|] eqn:Ht;
    try (exists [], Failure, hf; eexists;
         split; [reflexivity|]; split; [reflexivity|];
         split; [right; split; reflexivity | reflexivity]).
  cbv zeta. cbn [app writer calls].
  destruct (CurrentUser (oauth2Login.Client config ctx (Some t)))
    as [[user resp] err] eqn:HApi.
  cbn [fst snd].
  destruct (bitbucket.validateResponse user resp err) as [[e|]|why] eqn:Hv.
  - exists [APICall "bitbucket: user" (oauth2.AccessToken t)], Failure, hf.
    eexists. split; [reflexivity|]. split; [reflexivity|].
    split; [right; split; reflexivity | reflexivity].
  - destruct success as [hs|] eqn:Hs.
    + exists [APICall "bitbucket: user" (oauth2.AccessToken t)], Success, hs.
      eexists. split; [reflexivity|]. split; [reflexivity|].
      split; [left; split; reflexivity | reflexivity].
    + elim Hnot. exists t. split; [exact Ht|]. cbv zeta. rewrite HApi.
      cbn [fst snd]. right. split; [reflexivity | exact Hv].
  - elim Hnot. exists t. split; [exact Ht|]. cbv zeta. rewrite HApi.
    cbn [fst snd]. left.
    destruct (bitbucket_validateResponse_panics_inv _ _ _ Hv) as (-> & -> & _).
    split; reflexivity.
Qed.

End BitbucketCalls.

Lemma bitbucket_conventional_no_own_panic CurrentUser config hs
    (ctx : Context bitbucket.User) :
  (forall c, conventional (CurrentUser c)) ->
  ~ bitbucketOwnPanic CurrentUser config (Some hs) ctx.
Proof.
  intros Hconv (t & _ & Hcause). cbv zeta in Hcause.
  destruct Hcause as [[He Hr] | [Hs _]]; [|discriminate Hs].
  exact (Hconv (oauth2Login.Client config ctx (Some t)) He Hr).
Qed.

(** X9: facebookHandler itself panics in two cases only, both with a token
    in the context and after the request to the API: the client returned a
    nil response with a nil error, or the reply is accepted and the success
    handler is nil (only the failure handler has a default).  In these
    cases the run is that panic: no handler has been called and nothing is
    written.  In every other case, whatever the handlers are, the run is one
    call to the success handler or to the failure handler in use, and ends
    as that handler ends.  With handlers that are nil or only write to the
    response, the run returns or panics on a nil pointer, and it panics
    exactly in the two cases. *)
Theorem facebookHandler_panics_iff :
  forall Me config (success failure : option (goji.Handler facebook.User))
         (ctx : Context facebook.User) req w,
    let failure' :=
      match failure with
      | Some _ => failure
      | None => Some gologin.DefaultFailureHandler
      end in
    let out := run (facebook.facebookHandler Me config success failure) ctx req w in
    (facebookOwnPanic Me config success ctx ->
     exists t,
       context.Value ctx context.tokenKey = Some (context.AnyToken t)
       /\ out = (Panics nilDereference,
                 {| writer := w;
                    calls := [APICall "facebook: me" (oauth2.AccessToken t)] |}))
    /\ (~ facebookOwnPanic Me config success ctx ->
        exists pre role h ctx',
          invocations Success pre = 0%nat
          /\ invocations Failure pre = 0%nat
          /\ ((role = Success /\ success = Some h)
              \/ (role = Failure /\ failure' = Some h))
          /\ out = goji.ServeHTTP "facebookHandler" role (Some h) ctx' req
                     {| writer := w; calls := pre |})
    /\ (forall fs ff,
           success = option_map goji.leaf fs ->
           failure = option_map goji.leaf ff ->
           (result out = Returns tt \/ result out = Panics nilDereference)
           /\ (result out = Panics nilDereference
               <-> facebookOwnPanic Me config success ctx)
           /\ (result out = Panics nilDereference ->
               finalWriter out = w
               /\ (forall role, invocations role (log out) = 0%nat)
               /\ apiCalls (log out) = 1%nat)).
Proof.
  intros Me config success failure ctx req w failure' out.
  split; [|split].
  - apply facebookHandler_own_panic.
  - intros Hnot.
    exact (@facebookHandler_one_handover Me config success failure ctx req w
             Hnot).
  - intros fs ff -> ->. subst out.
    destruct (facebookHandler_writer_handlers_panic_iff Me config fs ff
                ctx req w) as (Hres & Hiff & Hworld).
    split; [exact Hres|]. split; [|exact Hworld].
    rewrite Hiff. unfold facebookOwnPanic.
    split; intros (t & Ht & Hcause); exists t; (split; [exact Ht|]);
      cbv zeta in *;
      (destruct Hcause as [Hnil | [Hs Hv]]; [now left | right]);
      (split; [|exact Hv]).
    + now rewrite Hs.
    + now destruct fs.
Qed.

(** X10: bitbucketHandler itself panics in two cases only, both with a token
    in the context and after the request to the API: the client returned a
    nil response with a nil error, or the reply is accepted and the success
    handler is nil (only the failure handler has a default).  In these
    cases the run is that panic: no handler has been called and nothing is
    written.  In every other case, whatever the handlers are, the run is one
    call to the success handler or to the failure handler in use, and ends
    as that handler ends.  With handlers that are nil or only write to the
    response, the run returns or panics on a nil pointer, and it panics
    exactly in the two cases. *)
Theorem bitbucketHandler_panics_iff :
  forall CurrentUser config (success failure : option (goji.Handler bitbucket.User))
         (ctx : Context bitbucket.User) req w,
    let failure' :=
      match failure with
      | Some _ => failure
      | None => Some gologin.DefaultFailureHandler
      end in
    let out := run (bitbucket.bitbucketHandler CurrentUser config success failure) ctx req w in
    (bitbucketOwnPanic CurrentUser config success ctx ->
     exists t,
       context.Value ctx context.tokenKey = Some (context.AnyToken t)
       /\ out = (Panics nilDereference,
                 {| writer := w;
                    calls := [APICall "bitbucket: user" (oauth2.AccessToken t)] |}))
    /\ (~ bitbucketOwnPanic CurrentUser config success ctx ->
        exists pre role h ctx',
          invocations Success pre = 0%nat
          /\ invocations Failure pre = 0%nat
          /\ ((role = Success /\ success = Some h)
              \/ (role = Failure /\ failure' = Some h))
          /\ out = goji.ServeHTTP "bitbucketHandler" role (Some h) ctx' req
                     {| writer := w; calls := pre |})
    /\ (forall fs ff,
           success = option_map goji.leaf fs ->
           failure = option_map goji.leaf ff ->
           (result out = Returns tt \/ result out = Panics nilDereference)
           /\ (result out = Panics nilDereference
               <-> bitbucketOwnPanic CurrentUser config success ctx)
           /\ (result out = Panics nilDereference ->
               finalWriter out = w
               /\ (forall role, invocations role (log out) = 0%nat)
               /\ apiCalls (log out) = 1%nat)).
Proof.
  intros CurrentUser config success failure ctx req w failure' out.
  split; [|split].
  - apply bitbucketHandler_own_panic.
  - intros Hnot.
    exact (@bitbucketHandler_one_handover CurrentUser config success failure ctx req w
             Hnot).
  - intros fs ff -> ->. subst out.
    destruct (bitbucketHandler_writer_handlers_panic_iff CurrentUser config fs ff
                ctx req w) as (Hres & Hiff & Hworld).
    split; [exact Hres|]. split; [|exact Hworld].
    rewrite Hiff. unfold bitbucketOwnPanic.
    split; intros (t & Ht & Hcause); exists t; (split; [exact Ht|]);
      cbv zeta in *;
      (destruct Hcause as [Hnil | [Hs Hv]]; [now left | right]);
      (split; [|exact Hv]).
    + now rewrite Hs.
    + now destruct fs.
Qed.

(** C2, amended: a run of facebookHandler or of bitbucketHandler with a
    non-nil success handler, on any context, request and response writer,
    and with a provider client that returns a response whenever it returns no
    error, is exactly one call, to the success handler or to the failure
    handler in use (the caller's, or the default one): exactly one of the
    two is called, exactly once, and the run ends as that handler ends.
    Whatever the client and the handlers are, a run calls at most one of
    the two, at most once: it ends before any call, in a panic, or is one
    call.  With handlers that only write to the response, the calls are
    counted in the log. *)
Theorem user_fetch_handler_calls_exactly_one_handler_once :
  (forall Me config success failure (ctx : Context facebook.User) req w,
      let failure' :=
        match failure with
        | Some _ => failure
        | None => Some gologin.DefaultFailureHandler
        end in
      let out :=
        run (facebook.facebookHandler Me config success failure) ctx req w in
      exists pre,
        invocations Success pre = 0%nat
        /\ invocations Failure pre = 0%nat
        /\ ((exists why, out = (Panics why, {| writer := w; calls := pre |}))
            \/ (exists ctx',
                   out = goji.ServeHTTP "facebookHandler" Success success
                           ctx' req {| writer := w; calls := pre |})
            \/ (exists ctx',
                   out = goji.ServeHTTP "facebookHandler" Failure failure'
                           ctx' req {| writer := w; calls := pre |})))
  /\ (forall Me config hs failure (ctx : Context facebook.User) req w,
         (forall c, conventional (Me c)) ->
         let failure' :=
           match failure with
           | Some _ => failure
           | None => Some gologin.DefaultFailureHandler
           end in
         exists pre role h ctx',
           invocations Success pre = 0%nat
           /\ invocations Failure pre = 0%nat
           /\ ((role = Success /\ h = hs)
               \/ (role = Failure /\ failure' = Some h))
           /\ run (facebook.facebookHandler Me config (Some hs) failure)
                  ctx req w
              = goji.ServeHTTP "facebookHandler" role (Some h) ctx' req
                  {| writer := w; calls := pre |})
  /\ (forall Me config fn failure ctx req w,
         let out :=
           run (facebook.facebookHandler Me config (Some (goji.leaf fn))
                  (option_map goji.leaf failure)) ctx req w in
         (invocations Success (log out) + invocations Failure (log out) <= 1)%nat
         /\ ((forall c, conventional (Me c)) ->
             result out = Returns tt
             /\ (invocations Success (log out)
                 + invocations Failure (log out) = 1)%nat))
  /\ (forall CurrentUser config success failure (ctx : Context bitbucket.User)
             req w,
         let failure' :=
           match failure with
           | Some _ => failure
           | None => Some gologin.DefaultFailureHandler
           end in
         let out :=
           run (bitbucket.bitbucketHandler CurrentUser config success failure)
               ctx req w in
         exists pre,
           invocations Success pre = 0%nat
           /\ invocations Failure pre = 0%nat
           /\ ((exists why, out = (Panics why, {| writer := w; calls := pre |}))
               \/ (exists ctx',
                      out = goji.ServeHTTP "bitbucketHandler" Success success
                              ctx' req {| writer := w; calls := pre |})
               \/ (exists ctx',
                      out = goji.ServeHTTP "bitbucketHandler" Failure failure'
                              ctx' req {| writer := w; calls := pre |})))
  /\ (forall CurrentUser config hs failure (ctx : Context bitbucket.User) req w,
         (forall c, conventional (CurrentUser c)) ->
         let failure' :=
           match failure with
           | Some _ => failure
           | None => Some gologin.DefaultFailureHandler
           end in
         exists pre role h ctx',
           invocations Success pre = 0%nat
           /\ invocations Failure pre = 0%nat
           /\ ((role = Success /\ h = hs)
               \/ (role = Failure /\ failure' = Some h))
           /\ run (bitbucket.bitbucketHandler CurrentUser config (Some hs)
                     failure) ctx req w
              = goji.ServeHTTP "bitbucketHandler" role (Some h) ctx' req
                  {| writer := w; calls := pre |})
  /\ (forall CurrentUser config fn failure ctx req w,
         let out :=
           run (bitbucket.bitbucketHandler CurrentUser config
                  (Some (goji.leaf fn)) (option_map goji.leaf failure))
               ctx req w in
         (invocations Success (log out) + invocations Failure (log out) <= 1)%nat
         /\ ((forall c, conventional (CurrentUser c)) ->
             result out = Returns tt
             /\ (invocations Success (log out)
                 + invocations Failure (log out) = 1)%nat)).
Proof.
  split; [|split; [|split; [|split; [|split]]]].
  - intros Me config success failure ctx req w.
    apply facebookHandler_at_most_one_call.
  - intros Me config hs failure ctx req w Hconv failure'.
    destruct (@facebookHandler_one_handover Me config (Some hs) failure ctx
                req w
                (@facebook_conventional_no_own_panic Me config hs ctx Hconv))
      as (pre & role & h & ctx' & Hs & Hf & Hrole & Hrun).
    exists pre, role, h, ctx'.
    split; [exact Hs|]. split; [exact Hf|]. split; [|exact Hrun].
    destruct Hrole as [[-> [= ->]] | Hfail]; [left | right]; auto.
  - exact facebookHandler_one_call.
  - intros CurrentUser config success failure ctx req w.
    apply bitbucketHandler_at_most_one_call.
  - intros CurrentUser config hs failure ctx req w Hconv failure'.
    destruct (@bitbucketHandler_one_handover CurrentUser config (Some hs) failure ctx
                req w
                (@bitbucket_conventional_no_own_panic CurrentUser config hs ctx Hconv))
      as (pre & role & h & ctx' & Hs & Hf & Hrole & Hrun).
    exists pre, role, h, ctx'.
    split; [exact Hs|]. split; [exact Hf|]. split; [|exact Hrun].
    destruct Hrole as [[-> [= ->]] | Hfail]; [left | right]; auto.
  - exact bitbucketHandler_one_call.
Qed.

(** TestFacebookHandler_ErrorGettingUser: the provider keeps the convention
    and is down; the run is one call to the failure handler. *)
Lemma user_fetch_handler_calls_exactly_one_handler_once_witness :
  let ctx := oauth2Login.WithToken context.Background anyToken in
  let out :=
    run (facebook.facebookHandler facebookDown config
           (Some (goji.leaf successCalled))
           (option_map goji.leaf (Some failureCalled)))
        ctx getRequest http.NewRecorder in
  (forall c, conventional (facebookDown c))
  /\ result out = Returns tt
  /\ (invocations Success (log out) + invocations Failure (log out) = 1)%nat.
Proof.
  intros ctx out.
  assert (Hconv : forall c, conventional (facebookDown c)).
  { intros c. unfold conventional, facebookDown. cbn. discriminate. }
  split; [exact Hconv|].
  destruct user_fetch_handler_calls_exactly_one_handler_once
    as (_ & _ & Hf & _).
  exact (proj2 (Hf facebookDown config successCalled (Some failureCalled)
                   ctx getRequest http.NewRecorder) Hconv).
Defined.

(** C2, as stated, fails: not every run calls a handler.  A client that
    returns a nil response with a nil error makes validateResponse panic
    before any call; and, the client keeping the convention of net/http, a
    nil success handler makes an accepted reply end in a panic, only the
    failure handler having a default. *)
Lemma user_fetch_handler_may_call_no_handler :
  ~ (forall (Me : http.Client (option oauth2.Token) -> facebook.Reply)
            config fn failure (ctx : Context facebook.User) req w,
        let out :=
          run (facebook.facebookHandler Me config (Some (goji.leaf fn))
                 (option_map goji.leaf failure)) ctx req w in
        (invocations Success (log out) + invocations Failure (log out)
         = 1)%nat)
  /\ ~ (forall (Me : http.Client (option oauth2.Token) -> facebook.Reply),
           (forall c, conventional (Me c)) ->
           forall config success failure (ctx : Context facebook.User) req w,
             let out :=
               run (facebook.facebookHandler Me config
                      (option_map goji.leaf success)
                      (option_map goji.leaf failure)) ctx req w in
             (invocations Success (log out) + invocations Failure (log out)
              = 1)%nat).
Proof.
  split; intros H.
  - specialize (H (fun _ => (None, None, None)) config successCalled
                  (Some failureCalled)
                  (oauth2Login.WithToken context.Background anyToken)
                  getRequest http.NewRecorder).
    discriminate H.
  - assert (Hconv : forall c, conventional (facebookServer c)).
    { intros c. unfold conventional, facebookServer. cbn. discriminate. }
    specialize (H facebookServer Hconv config None (Some failureCalled)
                  (oauth2Login.WithToken context.Background anyToken)
                  getRequest http.NewRecorder).
    discriminate H.
Qed.
